(** * examples/service-with-secrets/server.py

    A shallow embedding of the request handler [Handler.do_GET] of the
    example service, together with the parts of the Python runtime it calls
    ([os.environ.get], [bool], [json.dumps], [str.encode] and the response
    methods of [BaseHTTPRequestHandler]), and the properties of its three
    routes. *)

From Stdlib Require Import NArith ZArith Ascii String.
From Stdlib.Strings Require Import Byte.
From stdpp Require Import gmap list fin_maps.

Local Open Scope N_scope.

(** ** Python strings

    A Python [str] is a sequence of Unicode code points.  The values found in
    [os.environ] may hold lone surrogates (undecodable bytes are mapped to
    U+DC80..U+DCFF), so a code point is a plain number here and nothing is
    assumed about it. *)

Abbreviation str := (list N).

(** A literal of the source, one code point per character. *)
Definition py (s : string) : str :=
  map N_of_ascii (list_ascii_of_string s).

(** A [bytes] literal. *)
Definition bytes_of (s : string) : list byte := list_byte_of_string s.

Definition quote : N := 34.
Definition backslash : N := 92.
Definition newline : N := 10.
Definition space : N := 32.

(** ** Python values that the handler builds *)

Inductive value :=
| VStr (s : str)
| VBool (b : bool).

(** A [dict] literal keeps the order in which its keys are written. *)
Abbreviation dict := (list (str * value)).

Fixpoint dict_get (d : dict) (k : str) : option value :=
  match d with
  | [] => None
  | (k', v) :: d' => if decide (k' = k) then Some v else dict_get d' k
  end.

Definition keys (d : dict) : list str := map fst d.

(** ** [os.environ] *)

Abbreviation environment := (gmap str str).

(** [os.environ.get(key)]: [None] when the variable is not set. *)
Definition environ_get (env : environment) (key : str) : option str :=
  env !! key.

(** [os.environ.get(key, default)]. *)
Definition environ_get_default (env : environment) (key dflt : str) : str :=
  match env !! key with
  | Some v => v
  | None => dflt
  end.

(** [bool(x)] for [x] a [str] or [None]: only [None] and the empty string are
    false. *)
Definition bool_ (x : option str) : bool :=
  match x with
  | None => false
  | Some [] => false
  | Some (_ :: _) => true
  end.

(** ** [json.dumps]

    The encoder of CPython's [json] package with its defaults
    ([ensure_ascii=True], [sort_keys=False]), restricted to the values the
    handler passes to it: a [dict] with [str] keys whose values are [str] or
    [bool]. *)

Module json.

(** One lower-case hexadecimal digit. *)
Definition hexdigit (d : N) : N :=
  if d <? 10 then 48 + d else 87 + d.

(** [format(n, '04x')] for [n < 0x10000], which holds wherever the
    encoder calls it. *)
Definition hex4 (n : N) : str :=
  [ hexdigit (N.shiftr n 12 mod 16); hexdigit (N.shiftr n 8 mod 16);
    hexdigit (N.shiftr n 4 mod 16); hexdigit (n mod 16) ].

Definition u_escape (n : N) : str :=
  backslash :: 117 :: hex4 n.

(** [replace] of [py_encode_basestring_ascii]: the text put in place of a
    character matched by [ESCAPE_ASCII], that is a quote, a backslash or
    anything outside [' '..'~']. *)
Definition replace (c : N) : str :=
  if c =? 92 then [backslash; backslash]
  else if c =? 34 then [backslash; quote]
  else if c =? 8 then [backslash; 98]
  else if c =? 12 then [backslash; 102]
  else if c =? 10 then [backslash; 110]
  else if c =? 13 then [backslash; 114]
  else if c =? 9 then [backslash; 116]
  else if c <? 65536 then u_escape c
  else
    let n := c - 65536 in
    let s1 := N.lor 55296 (N.land (N.shiftr n 10) 1023) in
    let s2 := N.lor 56320 (N.land n 1023) in
    u_escape s1 ++ u_escape s2.

(** The characters [ESCAPE_ASCII] matches. *)
Definition must_escape (c : N) : bool :=
  (c =? 92) || (c =? 34) || (c <? 32) || (126 <? c).

Definition escape_char (c : N) : str :=
  if must_escape c then replace c else [c].

Definition encode_basestring_ascii (s : str) : str :=
  quote :: concat (map escape_char s) ++ [quote].

(** The text of one value. *)
Definition encode_value (v : value) : str :=
  match v with
  | VStr s => encode_basestring_ascii s
  | VBool true => py "true"
  | VBool false => py "false"
  end.

(** [newline_indent] at nesting level [level]. *)
Definition newline_indent (indent level : nat) : str :=
  newline :: repeat space (indent * level).

Definition key_separator : str := py ": ".

(** The separator between two members: [', '] without [indent], a comma
    and a new line with it. *)
Definition item_separator (indent : option nat) : str :=
  match indent with
  | None => py ", "
  | Some n => py "," ++ newline_indent n 1
  end.

Definition encode_member (kv : str * value) : str :=
  encode_basestring_ascii kv.1 ++ key_separator ++ encode_value kv.2.

(** The loop of [_iterencode_dict] over the items. *)
Fixpoint encode_items (sep : str) (first : bool) (items : dict) : str :=
  match items with
  | [] => []
  | kv :: rest =>
      (if first then [] else sep) ++ encode_member kv
        ++ encode_items sep false rest
  end.

(** [json.dumps(dct, indent=indent)]. *)
Definition dumps (indent : option nat) (dct : dict) : str :=
  match dct with
  | [] => py "{}"
  | _ =>
      py "{"
        ++ match indent with Some n => newline_indent n 1 | None => [] end
        ++ encode_items (item_separator indent) true dct
        ++ match indent with Some n => newline_indent n 0 | None => [] end
        ++ py "}"
  end.

(** *** Reading a text back: [json.loads]

    The decoder of the same package, restricted to what the encoder above
    writes: an object whose values are strings, [true] or [false].  Any
    other text is refused. *)

(** The value of one hexadecimal digit. *)
Definition hexval (c : N) : option N :=
  if (48 <=? c) && (c <=? 57) then Some (c - 48)
  else if (97 <=? c) && (c <=? 102) then Some (c - 87)
  else if (65 <=? c) && (c <=? 70) then Some (c - 55)
  else None.

(** [_decode_uXXXX]: the four digits after [\u]. *)
Definition decode_uXXXX (h1 h2 h3 h4 : N) : option N :=
  match hexval h1, hexval h2, hexval h3, hexval h4 with
  | Some d1, Some d2, Some d3, Some d4 =>
      Some (((d1 * 16 + d2) * 16 + d3) * 16 + d4)
  | _, _, _, _ => None
  end.

(** The table [BACKSLASH]. *)
Definition backslash_char (e : N) : option N :=
  if e =? 34 then Some 34
  else if e =? 92 then Some 92
  else if e =? 47 then Some 47
  else if e =? 98 then Some 8
  else if e =? 102 then Some 12
  else if e =? 110 then Some 10
  else if e =? 114 then Some 13
  else if e =? 116 then Some 9
  else None.

Definition is_high_surrogate (c : N) : bool := (55296 <=? c) && (c <=? 56319).
Definition is_low_surrogate (c : N) : bool := (56320 <=? c) && (c <=? 57343).

Definition push (c : N) (r : option (str * str)) : option (str * str) :=
  match r with
  | Some (s, rest) => Some (c :: s, rest)
  | None => None
  end.

(** [py_scanstring], strict: the text behind an opening quote, up to the
    closing one, and what follows it.  Two escapes that form a surrogate
    pair are read as one character. *)
Fixpoint scanstring (s : str) : option (str * str) :=
  match s with
  | [] => None
  | c :: s1 =>
      if c =? 34 then Some ([], s1)
      else if c =? 92 then
        match s1 with
        | [] => None
        | e :: s2 =>
            if e =? 117 then
              match s2 with
              | h1 :: h2 :: h3 :: h4 :: s3 =>
                  match decode_uXXXX h1 h2 h3 h4 with
                  | None => None
                  | Some uni =>
                      if is_high_surrogate uni then
                        match s3 with
                        | b :: u :: g1 :: g2 :: g3 :: g4 :: s4 =>
                            if (b =? 92) && (u =? 117) then
                              match decode_uXXXX g1 g2 g3 g4 with
                              | None => None
                              | Some uni2 =>
                                  if is_low_surrogate uni2 then
                                    push (65536 + N.lor (N.shiftl (uni - 55296) 10)
                                                    (uni2 - 56320))
                                      (scanstring s4)
                                  else push uni (scanstring s3)
                              end
                            else push uni (scanstring s3)
                        | _ => push uni (scanstring s3)
                        end
                      else push uni (scanstring s3)
                  end
              | _ => None
              end
            else
              match backslash_char e with
              | Some c' => push c' (scanstring s2)
              | None => None
              end
        end
      else if c <? 32 then None
      else push c (scanstring s1)
  end.

(** The whitespace the decoder skips. *)
Definition is_whitespace (c : N) : bool :=
  (c =? 32) || (c =? 9) || (c =? 10) || (c =? 13).

Fixpoint skip_whitespace (s : str) : str :=
  match s with
  | c :: s' => if is_whitespace c then skip_whitespace s' else s
  | [] => []
  end.

Fixpoint strip_prefix (p s : str) : option str :=
  match p, s with
  | [], _ => Some s
  | a :: p', b :: s' => if a =? b then strip_prefix p' s' else None
  | _ :: _, [] => None
  end.

(** One value: a string, [true] or [false]. *)
Definition scan_value (s : str) : option (value * str) :=
  match s with
  | c :: s' =>
      if c =? 34 then
        match scanstring s' with
        | Some (v, rest) => Some (VStr v, rest)
        | None => None
        end
      else
        match strip_prefix (py "true") s, strip_prefix (py "false") s with
        | Some rest, _ => Some (VBool true, rest)
        | None, Some rest => Some (VBool false, rest)
        | None, None => None
        end
  | [] => None
  end.

(** The loop of [JSONObject], entered at the opening quote of a key; it
    returns the pairs in the order read and what follows the closing
    brace. *)
Fixpoint scan_members (fuel : nat) (s : str) : option (dict * str) :=
  match fuel, s with
  | S fuel', c :: s1 =>
      if c =? 34 then
        match scanstring s1 with
        | Some (key, s2) =>
            match skip_whitespace s2 with
            | colon :: s3 =>
                if colon =? 58 then
                  match scan_value (skip_whitespace s3) with
                  | Some (v, s4) =>
                      match skip_whitespace s4 with
                      | d :: s5 =>
                          if d =? 125 then Some ([(key, v)], s5)
                          else if d =? 44 then
                            match scan_members fuel' (skip_whitespace s5) with
                            | Some (pairs, rest) => Some ((key, v) :: pairs, rest)
                            | None => None
                            end
                          else None
                      | [] => None
                      end
                  | None => None
                  end
                else None
            | [] => None
            end
        | None => None
        end
      else None
  | _, _ => None
  end.

(** [dct[key] = v]: a key already there keeps its place. *)
Fixpoint dict_set (dct : dict) (key : str) (v : value) : dict :=
  match dct with
  | [] => [(key, v)]
  | (k, v') :: rest =>
      if decide (k = key) then (k, v) :: rest
      else (k, v') :: dict_set rest key v
  end.

(** [dict(pairs)]. *)
Definition dict_of_pairs (pairs : dict) : dict :=
  fold_left (λ dct kv, dict_set dct kv.1 kv.2) pairs [].

(** [json.loads(s)] for [s] a [str]. *)
Definition loads (s : str) : option dict :=
  match skip_whitespace s with
  | c :: s1 =>
      if c =? 123 then
        match skip_whitespace s1 with
        | d :: s2 =>
            if d =? 125 then
              match skip_whitespace s2 with
              | [] => Some []
              | _ :: _ => None
              end
            else
              match scan_members (length s1) (d :: s2) with
              | Some (pairs, rest) =>
                  match skip_whitespace rest with
                  | [] => Some (dict_of_pairs pairs)
                  | _ :: _ => None
                  end
              | None => None
              end
        | [] => None
        end
      else None
  | [] => None
  end.

End json.

(** ** [str.encode()]: UTF-8

    Surrogates cannot be encoded: [str.encode] raises [UnicodeEncodeError]
    on them. *)

Inductive exn :=
| UnicodeEncodeError.

Inductive outcome (A : Type) :=
| Ok (a : A)
| Raised (e : exn).
Arguments Ok {A} a.
Arguments Raised {A} e.

Definition byte_of (n : N) : byte :=
  match Byte.of_N n with
  | Some b => b
  | None => x00
  end.

Definition utf8_char (c : N) : option (list byte) :=
  if c <? 128 then Some [byte_of c]
  else if c <? 2048 then
    Some [byte_of (N.lor 192 (N.shiftr c 6)); byte_of (N.lor 128 (N.land c 63))]
  else if (55296 <=? c) && (c <=? 57343) then None
  else if c <? 65536 then
    Some [byte_of (N.lor 224 (N.shiftr c 12));
          byte_of (N.lor 128 (N.land (N.shiftr c 6) 63));
          byte_of (N.lor 128 (N.land c 63))]
  else if c <? 1114112 then
    Some [byte_of (N.lor 240 (N.shiftr c 18));
          byte_of (N.lor 128 (N.land (N.shiftr c 12) 63));
          byte_of (N.lor 128 (N.land (N.shiftr c 6) 63));
          byte_of (N.lor 128 (N.land c 63))]
  else None.

Fixpoint utf8 (s : str) : option (list byte) :=
  match s with
  | [] => Some []
  | c :: s' =>
      match utf8_char c, utf8 s' with
      | Some bs, Some bs' => Some (bs ++ bs')
      | _, _ => None
      end
  end.

Definition str_encode (s : str) : outcome (list byte) :=
  match utf8 s with
  | Some bs => Ok bs
  | None => Raised UnicodeEncodeError
  end.

(** ** The process as the handler sees it

    The handler reads [os.environ] and calls the response methods of
    [BaseHTTPRequestHandler]; the calls are recorded in the order they are
    made. *)

Inductive event :=
| EvResponse (code : N)
| EvHeader (keyword val : str)
| EvEndHeaders
| EvWrite (data : list byte).

Record process := mkProcess {
  environ : environment;
  wfile : list event
}.

(** Handler code: it may read and change the process, and it may raise. *)
Definition handler_m (A : Type) : Type := process -> outcome A * process.

#[global] Instance handler_ret : MRet handler_m :=
  fun A a w => (Ok a, w).

#[global] Instance handler_bind : MBind handler_m :=
  fun A B f m w =>
    match m w with
    | (Ok a, w') => f a w'
    | (Raised e, w') => (Raised e, w')
    end.

Definition emit (e : event) : handler_m unit :=
  fun w => (Ok tt, mkProcess (environ w) (wfile w ++ [e])).

Definition lift {A} (o : outcome A) : handler_m A :=
  fun w => (o, w).

Definition os_environ_get (key : str) : handler_m (option str) :=
  fun w => (Ok (environ_get (environ w) key), w).

Definition os_environ_get_default (key dflt : str) : handler_m str :=
  fun w => (Ok (environ_get_default (environ w) key dflt), w).

Definition send_response (code : N) : handler_m unit := emit (EvResponse code).
Definition send_header (keyword val : str) : handler_m unit :=
  emit (EvHeader keyword val).
Definition end_headers : handler_m unit := emit EvEndHeaders.
Definition wfile_write (data : list byte) : handler_m unit := emit (EvWrite data).

(** ** [Handler.do_GET] *)

Definition do_GET (path : str) : handler_m unit :=
  if decide (path = py "/health") then
    send_response 200;;
    send_header (py "Content-Type") (py "application/json");;
    end_headers;;
    data ← lift (str_encode (json.dumps None [(py "status", VStr (py "healthy"))]));
    wfile_write data
  else if decide (path = py "/config") then
    send_response 200;;
    send_header (py "Content-Type") (py "application/json");;
    end_headers;;
    database_url ← os_environ_get_default (py "DATABASE_URL") (py "not_set");
    api_key ← os_environ_get (py "API_KEY");
    app_config ← os_environ_get_default (py "APP_CONFIG") (py "not_set");
    feature_flags ← os_environ_get_default (py "FEATURE_FLAGS") (py "not_set");
    environment ← os_environ_get_default (py "ENVIRONMENT") (py "not_set");
    let config : dict :=
      [ (py "database_url", VStr database_url);
        (py "api_key_present", VBool (bool_ api_key));
        (py "app_config", VStr app_config);
        (py "feature_flags", VStr feature_flags);
        (py "environment", VStr environment) ] in
    data ← lift (str_encode (json.dumps (Some 2%nat) config));
    wfile_write data
  else if decide (path = py "/secrets") then
    send_response 200;;
    send_header (py "Content-Type") (py "application/json");;
    end_headers;;
    db_password ← os_environ_get (py "DB_PASSWORD");
    jwt_secret ← os_environ_get (py "JWT_SECRET");
    encryption_key ← os_environ_get (py "ENCRYPTION_KEY");
    let secrets : dict :=
      [ (py "db_password_loaded", VBool (bool_ db_password));
        (py "jwt_secret_loaded", VBool (bool_ jwt_secret));
        (py "encryption_key_loaded", VBool (bool_ encryption_key)) ] in
    data ← lift (str_encode (json.dumps (Some 2%nat) secrets));
    wfile_write data
  else
    send_response 404;;
    end_headers.

(** ** The response a client receives

    The status, the headers the handler set and the body, read back from the
    recorded calls: one [send_response], then headers up to [end_headers],
    then the writes. *)

Record response := mkResponse {
  status : N;
  headers : list (str * str);
  body : list byte
}.

Fixpoint read_headers (tr : list event)
  : option (list (str * str) * list event) :=
  match tr with
  | EvHeader k v :: tr' =>
      match read_headers tr' with
      | Some (hs, rest) => Some ((k, v) :: hs, rest)
      | None => None
      end
  | EvEndHeaders :: tr' => Some ([], tr')
  | _ => None
  end.

Fixpoint read_body (tr : list event) : option (list byte) :=
  match tr with
  | [] => Some []
  | EvWrite d :: tr' =>
      match read_body tr' with
      | Some b => Some (d ++ b)
      | None => None
      end
  | _ => None
  end.

Definition response_of (tr : list event) : option response :=
  match tr with
  | EvResponse code :: tr' =>
      match read_headers tr' with
      | Some (hs, rest) =>
          match read_body rest with
          | Some b => Some (mkResponse code hs b)
          | None => None
          end
      | None => None
      end
  | _ => None
  end.

(** One GET request for [path], served in a process whose environment is
    [env]. *)
Definition handle (env : environment) (path : str) : option response :=
  match do_GET path (mkProcess env []) with
  | (Ok _, w) => response_of (wfile w)
  | (Raised _, _) => None
  end.

Definition content_type (r : response) : option str :=
  snd <$> List.find (fun h => bool_decide (h.1 = py "Content-Type")) (headers r).

(** ** The payloads, as functions of the environment *)

Definition content_type_json : str * str :=
  (py "Content-Type", py "application/json").

Definition health_payload : dict :=
  [ (py "status", VStr (py "healthy")) ].

Definition config_payload (env : environment) : dict :=
  [ (py "database_url",
      VStr (environ_get_default env (py "DATABASE_URL") (py "not_set")));
    (py "api_key_present", VBool (bool_ (environ_get env (py "API_KEY"))));
    (py "app_config",
      VStr (environ_get_default env (py "APP_CONFIG") (py "not_set")));
    (py "feature_flags",
      VStr (environ_get_default env (py "FEATURE_FLAGS") (py "not_set")));
    (py "environment",
      VStr (environ_get_default env (py "ENVIRONMENT") (py "not_set"))) ].

Definition secrets_payload (env : environment) : dict :=
  [ (py "db_password_loaded", VBool (bool_ (environ_get env (py "DB_PASSWORD"))));
    (py "jwt_secret_loaded", VBool (bool_ (environ_get env (py "JWT_SECRET"))));
    (py "encryption_key_loaded",
      VBool (bool_ (environ_get env (py "ENCRYPTION_KEY")))) ].

(** The variable is set and not empty. *)
Definition present (env : environment) (key : str) : Prop :=
  ∃ v, env !! key = Some v ∧ v ≠ [].

(** The variables read through [bool(os.environ.get(..))] and the ones read
    through [os.environ.get(.., 'not_set')]. *)
Definition flag_variables : list str :=
  [ py "API_KEY"; py "DB_PASSWORD"; py "JWT_SECRET"; py "ENCRYPTION_KEY" ].

Definition string_variables : list str :=
  [ py "DATABASE_URL"; py "APP_CONFIG"; py "FEATURE_FLAGS"; py "ENVIRONMENT" ].

Definition tracked_variables : list str :=
  string_variables ++ flag_variables.

(** The calls one request makes, in a process that had made none. *)
Definition emitted (path : str) (env : environment) : list event :=
  wfile (do_GET path (mkProcess env [])).2.

(** [needle in hay] on [bytes]. *)
Fixpoint starts_with (needle hay : list byte) : bool :=
  match needle, hay with
  | [], _ => true
  | _ :: _, [] => false
  | a :: needle', b :: hay' => Byte.eqb a b && starts_with needle' hay'
  end.

Fixpoint includes (needle hay : list byte) : bool :=
  starts_with needle hay ||
  match hay with
  | [] => false
  | _ :: hay' => includes needle hay'
  end.

Definition is_ascii (c : N) : Prop := c < 128.
Definition printable (c : N) : Prop := 32 <= c ∧ c <= 126.

(** The bytes of a text that has ASCII characters only. *)
Definition ascii_bytes (s : str) : list byte := map byte_of s.

(** ** Strings as [os.environ] holds them

    A code point is below 0x110000.  [os.environ] decodes the bytes of the
    process environment as UTF-8 with [surrogateescape]: a value holds
    Unicode scalar values and, for bytes that do not decode, the low
    surrogates U+DC80..U+DCFF; no high surrogate. *)

Definition readable_char (c : N) : bool :=
  (c <? 1114112) && negb (json.is_high_surrogate c).

Definition readable (s : str) : Prop :=
  forallb readable_char s = true.

Definition readable_value (v : value) : Prop :=
  match v with VStr s => readable s | VBool _ => True end.

Definition readable_dict (d : dict) : Prop :=
  Forall (λ kv, readable kv.1 ∧ readable_value kv.2) d.

(** The variables that /config echoes hold such strings. *)
Definition readable_environment (env : gmap str str) : Prop :=
  ∀ key v, key ∈ string_variables → env !! key = Some v → readable v.

(** ** Texts the responses are compared with *)

Definition quoted (s : str) : str := quote :: s ++ [quote].

(** The compact text [{"status": "healthy"}]. *)
Definition health_text : str :=
  py "{" ++ quoted (py "status") ++ py ": " ++ quoted (py "healthy") ++ py "}".

Definition bool_text (b : bool) : str :=
  if b then py "true" else py "false".

(** An object written one member per line, every member line indented by
    [n] spaces, the braces on lines of their own. *)
Fixpoint member_lines (n : nat) (members : list str) : str :=
  match members with
  | [] => []
  | [m] => newline :: repeat space n ++ m
  | m :: rest => newline :: repeat space n ++ m ++ py "," ++ member_lines n rest
  end.

Definition pretty (n : nat) (members : list str) : str :=
  py "{" ++ member_lines n members ++ [newline] ++ py "}".

(** The text of the [/secrets] body for given flags. *)
Definition secrets_text (db_password jwt_secret encryption_key : bool) : str :=
  pretty 2
    [ quoted (py "db_password_loaded") ++ py ": " ++ bool_text db_password;
      quoted (py "jwt_secret_loaded") ++ py ": " ++ bool_text jwt_secret;
      quoted (py "encryption_key_loaded") ++ py ": " ++ bool_text encryption_key ].

Definition secret_variables : list str :=
  [ py "DB_PASSWORD"; py "JWT_SECRET"; py "ENCRYPTION_KEY" ].

Definition config_variables : list str :=
  [ py "DATABASE_URL"; py "API_KEY"; py "APP_CONFIG"; py "FEATURE_FLAGS";
    py "ENVIRONMENT" ].

(** The two environments give a variable the same set-and-non-empty status. *)
Definition same_presence (env1 env2 : environment) (key : str) : Prop :=
  present env1 key ↔ present env2 key.

(** The two environments give a variable the same value, or both none. *)
Definition same_value (env1 env2 : environment) (key : str) : Prop :=
  env1 !! key = env2 !! key.

(** What the encoder writes between the last member and the closing
    brace. *)
Definition closing (indent : option nat) : str :=
  match indent with Some n => json.newline_indent n 0 | None => [] end.

(** The response to [path] is 200 with the indented JSON text of an object
    in which [field] has the value [v]. *)
Definition field_of (env : environment) (path field : str) (v : value) : Prop :=
  ∃ obj : dict,
    handle env path =
      Some (mkResponse 200 [content_type_json]
              (ascii_bytes (json.dumps (Some 2%nat) obj)))
    ∧ dict_get obj field = Some v.

(** ** Two statements that are put to the test below *)

(** No secret's value occurs in the [/secrets] body, whatever the value. *)
Definition secrets_body_excludes_every_value : Prop :=
  ∀ (env : environment) (key v : str) (bs : list byte) (r : response),
    key ∈ secret_variables →
    env !! key = Some v →
    utf8 v = Some bs →
    handle env (py "/secrets") = Some r →
    includes bs (body r) = false.

(** A tracked variable set to the empty string gives the response of the
    same environment without the variable, on every path. *)
Definition empty_is_unset_everywhere : Prop :=
  ∀ (env : environment) (key path : str),
    key ∈ tracked_variables →
    handle (<[key := []]> env) path = handle (delete key env) path.

(** ** The start of the program

    The two [print] calls of the main block; what they hand to
    [sys.stdout] is a text, the encoding of the stream is left out.  The
    server object and its loop are the library's. *)




(** ** Words for the further properties *)


Definition is_surrogate (c : N) : bool :=
  (55296 <=? c) && (c <=? 57343).

(** A character [str.encode()] accepts. *)
Definition encodable_char (c : N) : bool :=
  (c <? 1114112) && negb (is_surrogate c).

(** The number of line feeds in a body. *)
Definition line_feeds (data : list byte) : nat :=
  length (filter (λ b, Byte.to_N b = 10) data).

(** A line feed or a printable ASCII character. *)
Definition plain (c : N) : Prop := c = 10 ∨ printable c.

(** The lengths of the values [/config] echoes. *)
Definition echoed_length (env : environment) : nat :=
  length (environ_get_default env (py "DATABASE_URL") (py "not_set"))
  + length (environ_get_default env (py "APP_CONFIG") (py "not_set"))
  + length (environ_get_default env (py "FEATURE_FLAGS") (py "not_set"))
  + length (environ_get_default env (py "ENVIRONMENT") (py "not_set")).

(** * Properties *)

(** ** The encoder writes printable ASCII *)

Section Encoder.

Import json.

Lemma hexdigit_printable d : d < 16 → printable (hexdigit d).
Proof.
  unfold hexdigit, printable. intros Hd.
  destruct (d <? 10) eqn:E; [apply N.ltb_lt in E | apply N.ltb_ge in E]; lia.
Qed.

Lemma hex4_printable n : Forall printable (hex4 n).
Proof.
  unfold hex4.
  repeat constructor; apply hexdigit_printable; apply N.mod_lt; lia.
Qed.

Lemma u_escape_printable n : Forall printable (u_escape n).
Proof.
  unfold u_escape. constructor; [unfold printable, backslash; lia|].
  constructor; [unfold printable; lia|]. apply hex4_printable.
Qed.

Lemma replace_printable c : Forall printable (replace c).
Proof.
  unfold replace.
  repeat (case_match;
          [repeat constructor; unfold printable, backslash, quote; lia|]).
  case_match; [apply u_escape_printable|].
  apply Forall_app; split; apply u_escape_printable.
Qed.

Lemma escape_char_printable c : Forall printable (escape_char c).
Proof.
  unfold escape_char. destruct (must_escape c) eqn:E.
  - apply replace_printable.
  - unfold must_escape in E.
    repeat (apply orb_false_iff in E; destruct E as [E ?]).
    constructor; [|constructor].
    unfold printable. split; [apply N.ltb_ge|apply N.ltb_ge]; done.
Qed.

Lemma printable_ascii c : printable c → is_ascii c.
Proof. unfold printable, is_ascii. lia. Qed.

Lemma py_literal_printable s :
  forallb (fun c => (32 <=? c) && (c <=? 126)) (py s) = true →
  Forall printable (py s).
Proof.
  intros H. apply Forall_forall. intros c Hc.
  apply list_elem_of_In in Hc.
  eapply forallb_forall in H; [|exact Hc].
  apply andb_true_iff in H as [H1 H2].
  apply N.leb_le in H1, H2. by split.
Qed.

Lemma encode_basestring_ascii_printable s :
  Forall printable (encode_basestring_ascii s).
Proof.
  unfold encode_basestring_ascii.
  constructor; [unfold printable, quote; lia|].
  apply Forall_app; split.
  - apply List.Forall_concat, List.Forall_map, Forall_forall.
    intros c _. apply escape_char_printable.
  - repeat constructor; unfold quote; lia.
Qed.

Lemma encode_value_printable v : Forall printable (encode_value v).
Proof.
  destruct v as [s|[|]]; simpl.
  - apply encode_basestring_ascii_printable.
  - by apply py_literal_printable.
  - by apply py_literal_printable.
Qed.

Lemma encode_member_printable kv : Forall printable (encode_member kv).
Proof.
  unfold encode_member, key_separator.
  apply Forall_app_2; [apply encode_basestring_ascii_printable|].
  apply Forall_app_2; [by apply py_literal_printable|].
  apply encode_value_printable.
Qed.

Lemma newline_indent_ascii n level :
  Forall is_ascii (newline_indent n level).
Proof.
  unfold newline_indent. constructor; [unfold is_ascii, newline; lia|].
  apply Forall_forall. intros c Hc.
  apply list_elem_of_In, repeat_spec in Hc. subst c.
  unfold is_ascii, space. lia.
Qed.

Lemma item_separator_ascii indent : Forall is_ascii (item_separator indent).
Proof.
  destruct indent as [n|]; simpl.
  - constructor; [unfold is_ascii; lia|]. apply newline_indent_ascii.
  - repeat constructor; unfold is_ascii; lia.
Qed.

Lemma encode_items_ascii sep first items :
  Forall is_ascii sep → Forall is_ascii (encode_items sep first items).
Proof.
  intros Hsep. revert first.
  induction items as [|kv rest IH]; intros first; cbn [encode_items];
    [constructor|].
  apply Forall_app_2; [by destruct first|].
  apply Forall_app_2; [|apply IH].
  eapply Forall_impl; [apply encode_member_printable|].
  apply printable_ascii.
Qed.

Lemma dumps_ascii indent dct : Forall is_ascii (dumps indent dct).
Proof.
  unfold dumps. destruct dct as [|kv rest].
  - repeat constructor; unfold is_ascii; lia.
  - apply Forall_app_2; [repeat constructor; unfold is_ascii; lia|].
    apply Forall_app_2;
      [destruct indent; [apply newline_indent_ascii|constructor]|].
    apply Forall_app_2; [apply encode_items_ascii, item_separator_ascii|].
    apply Forall_app_2;
      [destruct indent; [apply newline_indent_ascii|constructor]|].
    repeat constructor; unfold is_ascii; lia.
Qed.

End Encoder.

(** ** ASCII text is its own UTF-8 encoding, and [encode] cannot raise on
    what [json.dumps] returns *)

Lemma utf8_ascii s : Forall is_ascii s → utf8 s = Some (ascii_bytes s).
Proof.
  induction 1 as [|c s Hc _ IH]; [done|].
  simpl. unfold utf8_char.
  apply N.ltb_lt in Hc. rewrite Hc, IH. done.
Qed.

Lemma str_encode_dumps indent dct :
  str_encode (json.dumps indent dct) = Ok (ascii_bytes (json.dumps indent dct)).
Proof. unfold str_encode. by rewrite utf8_ascii by apply dumps_ascii. Qed.

Lemma byte_of_ascii c : is_ascii c → Byte.to_N (byte_of c) = c.
Proof.
  unfold is_ascii, byte_of. intros Hc.
  destruct (Byte.of_N c) as [b|] eqn:E.
  - by apply Byte.to_of_N.
  - apply Byte.of_N_None_iff in E. lia.
Qed.

(** ** Reading back what the encoder wrote *)

Ltac div_mod_lia := zify; Z.to_euclidean_division_equations; lia.

Section Decoder.

Import json.

Lemma hexval_hexdigit d : d < 16 → hexval (hexdigit d) = Some d.
Proof.
  intros Hd. unfold hexval, hexdigit.
  destruct (d <? 10) eqn:E; [apply N.ltb_lt in E|apply N.ltb_ge in E].
  - replace ((48 <=? 48 + d) && (48 + d <=? 57)) with true.
    + f_equal. lia.
    + symmetry. apply andb_true_iff. split; apply N.leb_le; lia.
  - replace ((48 <=? 87 + d) && (87 + d <=? 57)) with false.
    + replace ((97 <=? 87 + d) && (87 + d <=? 102)) with true.
      * f_equal. lia.
      * symmetry. apply andb_true_iff. split; apply N.leb_le; lia.
    + symmetry. apply andb_false_iff. right. apply N.leb_gt. lia.
Qed.

Lemma hex_digits_sum n :
  n < 65536 →
  (((N.shiftr n 12 mod 16) * 16 + N.shiftr n 8 mod 16) * 16
     + N.shiftr n 4 mod 16) * 16 + n mod 16 = n.
Proof.
  intros Hn. rewrite !N.shiftr_div_pow2.
  change (2 ^ 12) with 4096. change (2 ^ 8) with 256. change (2 ^ 4) with 16.
  div_mod_lia.
Qed.

Lemma decode_hex4 n :
  n < 65536 →
  ∃ h1 h2 h3 h4,
    hex4 n = [h1; h2; h3; h4] ∧ decode_uXXXX h1 h2 h3 h4 = Some n.
Proof.
  intros Hn. do 4 eexists. split; [reflexivity|].
  unfold decode_uXXXX.
  rewrite !hexval_hexdigit by (apply N.mod_lt; lia).
  f_equal. by apply hex_digits_sum.
Qed.

(** A number whose low [k] bits are clear and a number below [2 ^ k] are
    joined by adding them. *)
Lemma lor_shiftl_low x b k :
  b < 2 ^ k → N.lor (N.shiftl x k) b = N.shiftl x k + b.
Proof.
  intros Hb. rewrite <- N.lxor_lor, <- N.add_nocarry_lxor; try done.
  all: apply N.bits_inj; intros i; rewrite N.land_spec, N.bits_0.
  all: destruct (N.lt_ge_cases i k) as [Hi|Hi].
  all: try (by rewrite N.shiftl_spec_low).
  all: rewrite <- (N.mod_small b (2 ^ k)) by done.
  all: rewrite N.mod_pow2_bits_high by done; apply andb_false_r.
Qed.

Lemma surrogate_pair n :
  n < 1048576 →
  N.lor 55296 (N.land (N.shiftr n 10) 1023) = 55296 + n / 1024
  ∧ N.lor 56320 (N.land n 1023) = 56320 + n mod 1024.
Proof.
  intros Hn.
  change 1023 with (N.ones 10). rewrite !N.land_ones, N.shiftr_div_pow2.
  change (2 ^ 10) with 1024.
  assert (H1 : n / 1024 < 1024) by div_mod_lia.
  assert (H2 : n mod 1024 < 1024) by (apply N.mod_lt; lia).
  rewrite (N.mod_small (n / 1024)) by done.
  change 55296 with (N.shiftl 54 10). change 56320 with (N.shiftl 55 10).
  split; apply lor_shiftl_low; done.
Qed.

Lemma surrogate_join n :
  n < 1048576 →
  65536 + N.lor (N.shiftl (55296 + n / 1024 - 55296) 10)
            (56320 + n mod 1024 - 56320) = 65536 + n.
Proof.
  intros Hn.
  replace (55296 + n / 1024 - 55296) with (n / 1024) by div_mod_lia.
  replace (56320 + n mod 1024 - 56320) with (n mod 1024) by div_mod_lia.
  rewrite lor_shiftl_low by (apply N.mod_lt; lia).
  rewrite N.shiftl_mul_pow2. change (2 ^ 10) with 1024.
  div_mod_lia.
Qed.

Lemma scanstring_u h1 h2 h3 h4 uni X :
  decode_uXXXX h1 h2 h3 h4 = Some uni →
  is_high_surrogate uni = false →
  scanstring (92 :: 117 :: h1 :: h2 :: h3 :: h4 :: X) = push uni (scanstring X).
Proof.
  intros Hd Hh. cbn [scanstring]. 
  change (92 =? 34) with false. change (92 =? 92) with true.
  change (117 =? 117) with true. cbv iota.
  by rewrite Hd, Hh.
Qed.

Lemma scanstring_pair h1 h2 h3 h4 g1 g2 g3 g4 uni uni2 X :
  decode_uXXXX h1 h2 h3 h4 = Some uni →
  is_high_surrogate uni = true →
  decode_uXXXX g1 g2 g3 g4 = Some uni2 →
  is_low_surrogate uni2 = true →
  scanstring (92 :: 117 :: h1 :: h2 :: h3 :: h4 ::
              92 :: 117 :: g1 :: g2 :: g3 :: g4 :: X)
  = push (65536 + N.lor (N.shiftl (uni - 55296) 10) (uni2 - 56320))
      (scanstring X).
Proof.
  intros Hd Hh Hd2 Hl. cbn [scanstring].
  change (92 =? 34) with false. change (92 =? 92) with true.
  change (117 =? 117) with true. cbv iota.
  rewrite Hd, Hh. cbn [andb]. by rewrite Hd2, Hl.
Qed.

Lemma scanstring_plain c X :
  (c =? 34) = false → (c =? 92) = false → (c <? 32) = false →
  scanstring (c :: X) = push c (scanstring X).
Proof. intros H1 H2 H3. cbn [scanstring]. by rewrite H1, H2, H3. Qed.

(** One test of [replace] on a character: the character is the constant, and
    the decoder is run on its escape, or it is not. *)
Ltac escape_case c k :=
  let H := fresh in
  destruct (c =? k) eqn:H;
  [apply N.eqb_eq in H; subst c; reflexivity|].

Lemma scanstring_escape_char c X :
  readable_char c = true →
  scanstring (escape_char c ++ X) = push c (scanstring X).
Proof.
  intros Hc. unfold readable_char in Hc.
  apply andb_true_iff in Hc as [Hlt Hhigh].
  apply N.ltb_lt in Hlt. apply negb_true_iff in Hhigh.
  unfold escape_char. destruct (must_escape c) eqn:E.
  - unfold replace.
    escape_case c 92. escape_case c 34. escape_case c 8. escape_case c 12.
    escape_case c 10. escape_case c 13. escape_case c 9.
    destruct (c <? 65536) eqn:E16.
    + apply N.ltb_lt in E16.
      destruct (decode_hex4 c E16) as (h1 & h2 & h3 & h4 & Hhex & Hdec).
      unfold u_escape. rewrite Hhex. by apply scanstring_u.
    + apply N.ltb_ge in E16. cbv zeta.
      destruct (surrogate_pair (c - 65536)) as [-> ->]; [lia|].
      assert (Hq : (c - 65536) / 1024 < 1024) by div_mod_lia.
      assert (Hr : (c - 65536) mod 1024 < 1024) by (apply N.mod_lt; lia).
      destruct (decode_hex4 (55296 + (c - 65536) / 1024))
        as (h1 & h2 & h3 & h4 & Hhex & Hdec); [div_mod_lia|].
      destruct (decode_hex4 (56320 + (c - 65536) mod 1024))
        as (g1 & g2 & g3 & g4 & Hhex2 & Hdec2); [div_mod_lia|].
      unfold u_escape, backslash. rewrite Hhex, Hhex2.
      cbn [app].
      assert (Hs1 : is_high_surrogate (55296 + (c - 65536) / 1024) = true).
      { unfold is_high_surrogate. apply andb_true_iff.
        split; apply N.leb_le; div_mod_lia. }
      assert (Hs2 : is_low_surrogate (56320 + (c - 65536) mod 1024) = true).
      { unfold is_low_surrogate. apply andb_true_iff.
        split; apply N.leb_le; div_mod_lia. }
      rewrite (scanstring_pair _ _ _ _ _ _ _ _ _ _ X Hdec Hs1 Hdec2 Hs2).
      rewrite surrogate_join by lia. f_equal. lia.
  - unfold must_escape in E.
    repeat (apply orb_false_iff in E; destruct E as [E ?]).
    apply scanstring_plain; done.
Qed.

Lemma scanstring_escape s rest :
  readable s →
  scanstring (concat (map escape_char s) ++ quote :: rest) = Some (s, rest).
Proof.
  unfold readable. induction s as [|c s IH]; intros Hs; [reflexivity|].
  cbn [forallb] in Hs. apply andb_true_iff in Hs as [Hc Hs].
  cbn [map concat]. rewrite <- app_assoc.
  rewrite scanstring_escape_char by done. by rewrite IH.
Qed.

Lemma skip_whitespace_stop c X :
  is_whitespace c = false → skip_whitespace (c :: X) = c :: X.
Proof. intros H. cbn [skip_whitespace]. by rewrite H. Qed.

Lemma skip_whitespace_spaces n X :
  skip_whitespace (repeat space n ++ X) = skip_whitespace X.
Proof. induction n as [|n IH]; [done|]. cbn [repeat app]. exact IH. Qed.

Lemma skip_whitespace_newline_indent n level X :
  skip_whitespace (newline_indent n level ++ X) = skip_whitespace X.
Proof. unfold newline_indent. cbn [app]. apply skip_whitespace_spaces. Qed.

Lemma encode_basestring_ascii_app s X :
  encode_basestring_ascii s ++ X
  = quote :: concat (map escape_char s) ++ quote :: X.
Proof. unfold encode_basestring_ascii. cbn [app]. by rewrite <- app_assoc. Qed.

Lemma skip_whitespace_value v X :
  skip_whitespace (encode_value v ++ X) = encode_value v ++ X.
Proof.
  destruct v as [s|[|]]; [|reflexivity..].
  cbn [encode_value]. rewrite encode_basestring_ascii_app.
  by apply skip_whitespace_stop.
Qed.

Lemma scan_value_encode v X :
  readable_value v → scan_value (encode_value v ++ X) = Some (v, X).
Proof.
  destruct v as [s|[|]]; intros Hv; [|reflexivity..].
  cbn [encode_value]. rewrite encode_basestring_ascii_app.
  unfold scan_value. change (quote =? 34) with true. cbv iota.
  by rewrite scanstring_escape.
Qed.

Lemma skip_whitespace_closing indent X :
  skip_whitespace (closing indent ++ py "}" ++ X) = 125 :: X.
Proof.
  destruct indent as [n|]; [|reflexivity].
  unfold closing. by rewrite skip_whitespace_newline_indent.
Qed.

Lemma skip_whitespace_separator indent X :
  ∃ ws, item_separator indent ++ X = 44 :: ws ++ X
        ∧ ∀ Y, skip_whitespace (ws ++ Y) = skip_whitespace Y.
Proof.
  destruct indent as [n|].
  - exists (newline_indent n 1). split; [reflexivity|].
    intros Y. apply skip_whitespace_newline_indent.
  - exists [space]. split; [reflexivity|]. done.
Qed.

Lemma scan_members_step fuel kv R :
  readable kv.1 → readable_value kv.2 →
  scan_members (S fuel) (encode_member kv ++ R) =
    match skip_whitespace R with
    | d :: s5 =>
        if d =? 125 then Some ([kv], s5)
        else if d =? 44 then
          match scan_members fuel (skip_whitespace s5) with
          | Some (pairs, rest) => Some (kv :: pairs, rest)
          | None => None
          end
        else None
    | [] => None
    end.
Proof.
  destruct kv as [k v]. cbn [fst snd]. intros Hk Hv.
  unfold encode_member. cbn [fst snd].
  rewrite <- !app_assoc, encode_basestring_ascii_app.
  cbn [scan_members]. change (quote =? 34) with true. cbv iota.
  rewrite scanstring_escape by done.
  change (key_separator ++ encode_value v ++ R)
    with (58 :: 32 :: encode_value v ++ R).
  rewrite skip_whitespace_stop by done.
  change (58 =? 58) with true. cbv iota.
  change (skip_whitespace (32 :: encode_value v ++ R))
    with (skip_whitespace (encode_value v ++ R)).
  rewrite skip_whitespace_value, scan_value_encode by done.
  done.
Qed.

Lemma skip_whitespace_member kv R :
  skip_whitespace (encode_member kv ++ R) = encode_member kv ++ R.
Proof.
  unfold encode_member. rewrite <- !app_assoc, encode_basestring_ascii_app.
  by apply skip_whitespace_stop.
Qed.

Lemma scan_members_items indent items : ∀ kv fuel X,
  (length items < fuel)%nat →
  readable_dict (kv :: items) →
  scan_members fuel
    (encode_member kv ++ encode_items (item_separator indent) false items
       ++ closing indent ++ py "}" ++ X)
  = Some (kv :: items, X).
Proof.
  induction items as [|kv' items IH]; intros kv fuel X Hfuel Hd;
    (destruct fuel as [|fuel]; [cbn [length] in Hfuel; lia|]);
    apply Forall_cons in Hd as [[Hk Hv] Hd].
  - rewrite scan_members_step by done.
    cbn [encode_items app]. by rewrite skip_whitespace_closing.
  - rewrite scan_members_step by done.
    cbn [encode_items].
    destruct (skip_whitespace_separator indent
                (encode_member kv' ++
                 encode_items (item_separator indent) false items)) as (ws & Hsep & Hws).
    rewrite <- !app_assoc.
    destruct (skip_whitespace_separator indent
                (encode_member kv' ++
                 encode_items (item_separator indent) false items ++
                 closing indent ++ py "}" ++ X)) as (ws' & Hsep' & Hws').
    rewrite Hsep'. rewrite skip_whitespace_stop by done.
    change (44 =? 125) with false. change (44 =? 44) with true. cbv iota.
    rewrite Hws', skip_whitespace_member.
    rewrite IH; [done| cbn [length] in Hfuel; lia | done].
Qed.

Lemma dict_set_fresh (dct : dict) key v :
  key ∉ keys dct → dict_set dct key v = dct ++ [(key, v)].
Proof.
  induction dct as [|[k v'] dct IH]; intros Hk; [done|].
  cbn [dict_set app]. unfold keys in Hk. cbn [map fst] in Hk.
  apply not_elem_of_cons in Hk as [Hne Hk].
  rewrite decide_False by done. by rewrite IH.
Qed.

Lemma dict_of_pairs_fold (pairs acc : dict) :
  NoDup (keys (acc ++ pairs)) →
  fold_left (λ dct kv, dict_set dct kv.1 kv.2) pairs acc = acc ++ pairs.
Proof.
  revert acc. induction pairs as [|[k v] pairs IH]; intros acc Hnd.
  - by rewrite app_nil_r.
  - cbn [fold_left fst snd].
    assert (Hk : k ∉ keys acc).
    { unfold keys in *. rewrite map_app in Hnd. cbn [map fst] in Hnd.
      apply NoDup_app in Hnd as (_ & Hdisj & _).
      intros Hin. apply (Hdisj k Hin). by left. }
    rewrite dict_set_fresh by done.
    rewrite IH; rewrite <- app_assoc; done.
Qed.

Lemma dict_of_pairs_nodup (pairs : dict) :
  NoDup (keys pairs) → dict_of_pairs pairs = pairs.
Proof. intros H. unfold dict_of_pairs. by rewrite dict_of_pairs_fold. Qed.

Lemma encode_member_length kv : (0 < length (encode_member kv))%nat.
Proof. unfold encode_member, encode_basestring_ascii. cbn [app length]. lia. Qed.

Lemma encode_items_length sep first items :
  (length items ≤ length (encode_items sep first items))%nat.
Proof.
  revert first. induction items as [|kv items IH]; intros first; [done|].
  cbn [encode_items length]. rewrite !length_app.
  pose proof (encode_member_length kv). specialize (IH false). lia.
Qed.

Lemma loads_dumps indent (d : dict) :
  NoDup (keys d) → readable_dict d → loads (dumps indent d) = Some d.
Proof.
  intros Hnd Hd. destruct d as [|kv items]; [reflexivity|].
  unfold dumps. cbn [encode_items app]. fold (closing indent).
  set (opening := match indent with
                  | Some n => newline_indent n 1
                  | None => []
                  end).
  rewrite <- !app_assoc.
  set (members := encode_member kv
                    ++ encode_items (item_separator indent) false items
                    ++ closing indent ++ py "}").
  assert (Hopen : skip_whitespace (opening ++ members) = members).
  { transitivity (skip_whitespace members).
    - subst opening. destruct indent;
        [apply skip_whitespace_newline_indent|done].
    - apply skip_whitespace_member. }
  assert (Hscan : scan_members (length (opening ++ members)) members
                  = Some (kv :: items, [])).
  { subst members.
    rewrite <- (app_nil_r (py "}")) at 2.
    apply scan_members_items; [|done].
    rewrite !length_app.
    pose proof (encode_member_length kv).
    pose proof (encode_items_length (item_separator indent) false items).
    lia. }
  assert (Hquote : ∃ m, members = 34 :: m).
  { subst members. unfold encode_member.
    rewrite <- !app_assoc, encode_basestring_ascii_app. by eexists. }
  destruct Hquote as [m Hm].
  unfold loads.
  change (py "{" ++ opening ++ members) with (123 :: opening ++ members).
  rewrite skip_whitespace_stop by done.
  change (123 =? 123) with true. cbv iota.
  rewrite Hopen. rewrite Hm in Hscan |- *.
  change (34 =? 125) with false. cbv iota.
  rewrite Hscan. cbn [skip_whitespace].
  by rewrite dict_of_pairs_nodup.
Qed.

End Decoder.

(** ** The layout of an indented object *)

Lemma encode_items_lines n m rest :
  json.newline_indent n 1 ++ json.encode_member m
    ++ json.encode_items (json.item_separator (Some n)) false rest
  = member_lines n (map json.encode_member (m :: rest)).
Proof.
  revert m. induction rest as [|m' rest IH]; intros m.
  - cbn [json.encode_items map member_lines]. unfold json.newline_indent.
    by rewrite Nat.mul_1_r, app_nil_r.
  - cbn [json.encode_items map]. cbn [map] in IH.
    change (member_lines n (json.encode_member m
                              :: json.encode_member m'
                              :: map json.encode_member rest))
      with (newline :: repeat space n ++ json.encode_member m ++ py "," ++
            member_lines n (json.encode_member m'
                              :: map json.encode_member rest)).
    rewrite <- IH.
    unfold json.item_separator, json.newline_indent.
    rewrite Nat.mul_1_r. by rewrite <- !app_assoc.
Qed.

Lemma dumps_pretty n kv rest :
  json.dumps (Some n) (kv :: rest)
  = pretty n (map json.encode_member (kv :: rest)).
Proof.
  unfold json.dumps, pretty. cbn [json.encode_items].
  rewrite <- encode_items_lines.
  unfold json.newline_indent at 2. rewrite Nat.mul_0_r.
  cbn [repeat]. by rewrite <- !app_assoc.
Qed.

Lemma encode_member_bool key b :
  json.encode_member (key, VBool b)
  = json.encode_basestring_ascii key ++ py ": " ++ bool_text b.
Proof. by destruct b. Qed.

Lemma secrets_dumps env :
  json.dumps (Some 2%nat) (secrets_payload env)
  = secrets_text (bool_ (environ_get env (py "DB_PASSWORD")))
      (bool_ (environ_get env (py "JWT_SECRET")))
      (bool_ (environ_get env (py "ENCRYPTION_KEY"))).
Proof.
  unfold secrets_payload. rewrite dumps_pretty. cbn [map].
  by rewrite !encode_member_bool.
Qed.

(** ** Running the handler *)

(** Unfolds the monad down to plain pairs. *)
Ltac run_handler :=
  unfold mbind, handler_bind, mret, handler_ret, send_response, send_header,
    end_headers, wfile_write, emit, lift, os_environ_get,
    os_environ_get_default;
  cbn [environ wfile].

(** Two different literals are different. *)
Ltac literal_ne :=
  let H := fresh in intros H; vm_compute in H; discriminate H.

(** Decides which branch of [do_GET] a literal path takes. *)
Ltac literal_path :=
  repeat first
    [ rewrite decide_True by reflexivity
    | rewrite decide_False by literal_ne ].

Lemma do_GET_health w :
  do_GET (py "/health") w =
    (Ok tt,
     mkProcess (environ w)
       (wfile w ++
        [ EvResponse 200; EvHeader (py "Content-Type") (py "application/json");
          EvEndHeaders;
          EvWrite (ascii_bytes (json.dumps None health_payload)) ])).
Proof.
  unfold do_GET. literal_path. run_handler.
  fold health_payload. rewrite str_encode_dumps.
  by rewrite <- !app_assoc.
Qed.

Lemma do_GET_config w :
  do_GET (py "/config") w =
    (Ok tt,
     mkProcess (environ w)
       (wfile w ++
        [ EvResponse 200; EvHeader (py "Content-Type") (py "application/json");
          EvEndHeaders;
          EvWrite (ascii_bytes (json.dumps (Some 2%nat)
                                  (config_payload (environ w)))) ])).
Proof.
  unfold do_GET. literal_path. run_handler.
  fold (config_payload (environ w)). rewrite str_encode_dumps.
  by rewrite <- !app_assoc.
Qed.

Lemma do_GET_secrets w :
  do_GET (py "/secrets") w =
    (Ok tt,
     mkProcess (environ w)
       (wfile w ++
        [ EvResponse 200; EvHeader (py "Content-Type") (py "application/json");
          EvEndHeaders;
          EvWrite (ascii_bytes (json.dumps (Some 2%nat)
                                  (secrets_payload (environ w)))) ])).
Proof.
  unfold do_GET. literal_path. run_handler.
  fold (secrets_payload (environ w)). rewrite str_encode_dumps.
  by rewrite <- !app_assoc.
Qed.

Lemma do_GET_other path w :
  path ≠ py "/health" → path ≠ py "/config" → path ≠ py "/secrets" →
  do_GET path w =
    (Ok tt, mkProcess (environ w) (wfile w ++ [EvResponse 404; EvEndHeaders])).
Proof.
  intros H1 H2 H3. unfold do_GET.
  rewrite !decide_False by done. run_handler.
  by rewrite <- !app_assoc.
Qed.

(** ** The response of each route *)

Lemma handle_health env :
  handle env (py "/health") =
    Some (mkResponse 200 [content_type_json]
            (ascii_bytes (json.dumps None health_payload))).
Proof.
  unfold handle. rewrite do_GET_health. cbn [wfile app response_of].
  cbn [read_headers read_body]. by rewrite app_nil_r.
Qed.

Lemma handle_config env :
  handle env (py "/config") =
    Some (mkResponse 200 [content_type_json]
            (ascii_bytes (json.dumps (Some 2%nat) (config_payload env)))).
Proof.
  unfold handle. rewrite do_GET_config. cbn [wfile environ app response_of].
  cbn [read_headers read_body]. by rewrite app_nil_r.
Qed.

Lemma handle_secrets env :
  handle env (py "/secrets") =
    Some (mkResponse 200 [content_type_json]
            (ascii_bytes (json.dumps (Some 2%nat) (secrets_payload env)))).
Proof.
  unfold handle. rewrite do_GET_secrets. cbn [wfile environ app response_of].
  cbn [read_headers read_body]. by rewrite app_nil_r.
Qed.

Lemma handle_other env path :
  path ≠ py "/health" → path ≠ py "/config" → path ≠ py "/secrets" →
  handle env path = Some (mkResponse 404 [] []).
Proof.
  intros H1 H2 H3. unfold handle. by rewrite do_GET_other.
Qed.

Lemma content_type_of_json code b :
  content_type (mkResponse code [content_type_json] b)
  = Some (py "application/json").
Proof. reflexivity. Qed.

Lemma bool_present env key :
  bool_ (environ_get env key) = true ↔ present env key.
Proof.
  unfold environ_get, present, bool_. split.
  - destruct (env !! key) as [[|c v]|]; try done. intros _. by eexists.
  - intros (v & -> & Hv). by destruct v.
Qed.

Lemma bool_same_presence env1 env2 key :
  same_presence env1 env2 key →
  bool_ (environ_get env1 key) = bool_ (environ_get env2 key).
Proof.
  unfold same_presence. rewrite <- !bool_present.
  destruct (bool_ (environ_get env1 key)), (bool_ (environ_get env2 key));
    intuition congruence.
Qed.

(** ** What a response depends on *)

Lemma handle_cases env path :
  handle env path =
    if decide (path = py "/health") then
      Some (mkResponse 200 [content_type_json]
              (ascii_bytes (json.dumps None health_payload)))
    else if decide (path = py "/config") then
      Some (mkResponse 200 [content_type_json]
              (ascii_bytes (json.dumps (Some 2%nat) (config_payload env))))
    else if decide (path = py "/secrets") then
      Some (mkResponse 200 [content_type_json]
              (ascii_bytes (json.dumps (Some 2%nat) (secrets_payload env))))
    else Some (mkResponse 404 [] []).
Proof.
  destruct (decide (path = py "/health")) as [->|H1]; [apply handle_health|].
  destruct (decide (path = py "/config")) as [->|H2]; [apply handle_config|].
  destruct (decide (path = py "/secrets")) as [->|H3]; [apply handle_secrets|].
  by apply handle_other.
Qed.

Lemma handle_ext env1 env2 path :
  (path = py "/config" → config_payload env1 = config_payload env2) →
  (path = py "/secrets" → secrets_payload env1 = secrets_payload env2) →
  handle env1 path = handle env2 path.
Proof.
  intros Hc Hs. rewrite !handle_cases.
  repeat case_decide; try done.
  - by rewrite Hc.
  - by rewrite Hs.
Qed.

Lemma config_payload_ext env1 env2 :
  same_value env1 env2 (py "DATABASE_URL") →
  bool_ (environ_get env1 (py "API_KEY")) = bool_ (environ_get env2 (py "API_KEY")) →
  same_value env1 env2 (py "APP_CONFIG") →
  same_value env1 env2 (py "FEATURE_FLAGS") →
  same_value env1 env2 (py "ENVIRONMENT") →
  config_payload env1 = config_payload env2.
Proof.
  unfold same_value, config_payload, environ_get_default.
  by intros -> -> -> -> ->.
Qed.

Lemma secrets_payload_ext env1 env2 :
  bool_ (environ_get env1 (py "DB_PASSWORD")) = bool_ (environ_get env2 (py "DB_PASSWORD")) →
  bool_ (environ_get env1 (py "JWT_SECRET")) = bool_ (environ_get env2 (py "JWT_SECRET")) →
  bool_ (environ_get env1 (py "ENCRYPTION_KEY")) = bool_ (environ_get env2 (py "ENCRYPTION_KEY")) →
  secrets_payload env1 = secrets_payload env2.
Proof. unfold secrets_payload. by intros -> -> ->. Qed.

(** Setting a variable to the empty string or removing it: the other
    variables keep their values, and [bool] does not tell the two apart. *)
Lemma empty_or_unset_other (env : environment) (key key' : str) :
  key ≠ key' → same_value (<[key := []]> env) (delete key env) key'.
Proof.
  intros Hne. unfold same_value.
  by rewrite lookup_insert_ne, lookup_delete_ne.
Qed.

Lemma empty_or_unset_bool (env : environment) (key key' : str) :
  bool_ (environ_get (<[key := []]> env) key')
  = bool_ (environ_get (delete key env) key').
Proof.
  unfold environ_get. destruct (decide (key = key')) as [->|Hne].
  - by rewrite lookup_insert_eq, lookup_delete_eq.
  - by rewrite lookup_insert_ne, lookup_delete_ne.
Qed.

(** ** [/health] *)

(** C7: whatever the environment, GET /health answers 200 with the header
    Content-Type: application/json and the body {"status": "healthy"}, a text
    that reads as the object with the one key status and the value healthy. *)
Theorem health_response (env : environment) :
  handle env (py "/health") =
    Some (mkResponse 200 [(py "Content-Type", py "application/json")]
            (ascii_bytes health_text))
  ∧ utf8 health_text = Some (ascii_bytes health_text)
  ∧ json.loads health_text = Some [(py "status", VStr (py "healthy"))].
Proof.
  split; [apply handle_health|]. split; reflexivity.
Qed.

(** ** [/config] *)

Lemma literal_readable s :
  forallb readable_char (py s) = true → readable (py s).
Proof. done. Qed.

Lemma config_payload_nodup env : NoDup (keys (config_payload env)).
Proof. apply (bool_decide_unpack _). vm_compute. exact I. Qed.

Lemma secrets_payload_nodup env : NoDup (keys (secrets_payload env)).
Proof. apply (bool_decide_unpack _). vm_compute. exact I. Qed.

Lemma environ_get_default_readable (env : environment) key dflt :
  (∀ v, env !! key = Some v → readable v) → readable dflt →
  readable (environ_get_default env key dflt).
Proof.
  intros Hv Hd. unfold environ_get_default.
  destruct (env !! key) as [v|]; [by apply Hv|done].
Qed.

Lemma config_payload_readable env :
  readable_environment env → readable_dict (config_payload env).
Proof.
  intros H. unfold config_payload, readable_dict.
  repeat apply Forall_cons_2; try apply Forall_nil_2; cbn [fst snd].
  all: split; [by apply literal_readable|]; cbn [readable_value]; try done.
  all: apply environ_get_default_readable; [|by apply literal_readable].
  all: intros v; apply H; unfold string_variables; set_solver.
Qed.

(** Settles [readable_environment] for an environment given in full. *)
Ltac literal_environment :=
  let Hkey := fresh in let Hv := fresh in
  intros ? ? Hkey Hv; unfold string_variables in Hkey;
  rewrite !elem_of_cons, elem_of_nil in Hkey;
  destruct Hkey as [->|[->|[->|[->|[]]]]];
  vm_compute in Hv; inversion Hv; vm_compute; reflexivity.

Lemma secrets_payload_readable env : readable_dict (secrets_payload env).
Proof.
  unfold secrets_payload, readable_dict.
  repeat apply Forall_cons_2; try apply Forall_nil_2; cbn [fst snd].
  all: split; [by apply literal_readable|done].
Qed.

(** C1: whatever the environment, GET /config answers 200 with the JSON
    text of an object whose keys are database_url, api_key_present,
    app_config, feature_flags and environment, in which the four string
    fields hold the values of DATABASE_URL, APP_CONFIG, FEATURE_FLAGS and
    ENVIRONMENT as they are, or not_set for a variable that is not set, and
    api_key_present is a boolean, true exactly when API_KEY is set and not
    empty.  When the four values are strings as [os.environ] holds them, a
    client that reads the text gets this very object back, character for
    character. *)
Theorem config_response (env : environment) :
  let echo key :=
    match env !! key with Some v => VStr v | None => VStr (py "not_set") end in
  ∃ (obj : dict) (text : str),
    handle env (py "/config") =
      Some (mkResponse 200 [(py "Content-Type", py "application/json")]
              (ascii_bytes text))
    ∧ text = json.dumps (Some 2%nat) obj
    ∧ utf8 text = Some (ascii_bytes text)
    ∧ keys obj = [ py "database_url"; py "api_key_present"; py "app_config";
                   py "feature_flags"; py "environment" ]
    ∧ dict_get obj (py "database_url") = Some (echo (py "DATABASE_URL"))
    ∧ dict_get obj (py "app_config") = Some (echo (py "APP_CONFIG"))
    ∧ dict_get obj (py "feature_flags") = Some (echo (py "FEATURE_FLAGS"))
    ∧ dict_get obj (py "environment") = Some (echo (py "ENVIRONMENT"))
    ∧ (∃ b : bool,
         dict_get obj (py "api_key_present") = Some (VBool b)
         ∧ (b = true ↔ present env (py "API_KEY")))
    ∧ (readable_environment env → json.loads text = Some obj).
Proof.
  intros echo. exists (config_payload env). eexists.
  split; [apply handle_config|].
  split; [reflexivity|].
  split; [apply utf8_ascii, dumps_ascii|].
  split; [reflexivity|].
  unfold config_payload at 1 2 3 4 5, environ_get_default. cbn [dict_get].
  literal_path. subst echo. cbv beta.
  repeat (split; [by destruct (env !! _)|]).
  split; [eexists; split; [reflexivity|apply bool_present]|].
  intros Hr. apply loads_dumps;
    [apply config_payload_nodup|by apply config_payload_readable].
Qed.

(** A database URL with a quote, a backslash, a line break, an accented
    letter, a character beyond the basic plane and an undecodable byte. *)
Lemma config_response_witness :
  let url : str :=
    py "postgres://u:p@h/db?q=" ++ [34; 92; 10; 233; 128512; 56447] in
  let env : environment :=
    {[ py "DATABASE_URL" := url; py "API_KEY" := py "abc123" ]} in
  ∃ (obj : dict) (text : str),
    handle env (py "/config") =
      Some (mkResponse 200 [(py "Content-Type", py "application/json")]
              (ascii_bytes text))
    ∧ json.loads text = Some obj
    ∧ dict_get obj (py "database_url") = Some (VStr url)
    ∧ dict_get obj (py "api_key_present") = Some (VBool true).
Proof.
  intros url env.
  destruct (config_response env)
    as (obj & text & Hh & Ht & _ & _ & Hurl & _ & _ & _ & (b & Hb & Hp) & Hl).
  exists obj, text. split; [exact Hh|]. split.
  - apply Hl. literal_environment.
  - split; [exact Hurl|]. rewrite Hb. do 2 f_equal. apply Hp.
    exists (py "abc123"). split; [reflexivity|discriminate].
Defined.

(** ** [/secrets] *)

(** C2: whatever the environment, GET /secrets answers 200 with the JSON
    text of an object whose keys are db_password_loaded, jwt_secret_loaded
    and encryption_key_loaded, each a boolean that is true exactly when
    DB_PASSWORD, JWT_SECRET, ENCRYPTION_KEY is set and not empty; a client
    that reads the text gets this object.  With DB_PASSWORD=secret,
    JWT_SECRET not set and ENCRYPTION_KEY empty the object is
    {db_password_loaded: true, jwt_secret_loaded: false,
    encryption_key_loaded: false}. *)
Theorem secrets_response (env : environment) :
  (∃ (obj : dict) (text : str) (db_password jwt_secret encryption_key : bool),
     handle env (py "/secrets") =
       Some (mkResponse 200 [(py "Content-Type", py "application/json")]
               (ascii_bytes text))
     ∧ text = json.dumps (Some 2%nat) obj
     ∧ utf8 text = Some (ascii_bytes text)
     ∧ json.loads text = Some obj
     ∧ obj = [ (py "db_password_loaded", VBool db_password);
               (py "jwt_secret_loaded", VBool jwt_secret);
               (py "encryption_key_loaded", VBool encryption_key) ]
     ∧ (db_password = true ↔ present env (py "DB_PASSWORD"))
     ∧ (jwt_secret = true ↔ present env (py "JWT_SECRET"))
     ∧ (encryption_key = true ↔ present env (py "ENCRYPTION_KEY")))
  ∧ (env !! py "DB_PASSWORD" = Some (py "secret") →
     env !! py "JWT_SECRET" = None →
     env !! py "ENCRYPTION_KEY" = Some [] →
     ∃ text : str,
       handle env (py "/secrets") =
         Some (mkResponse 200 [(py "Content-Type", py "application/json")]
                 (ascii_bytes text))
       ∧ json.loads text =
           Some [ (py "db_password_loaded", VBool true);
                  (py "jwt_secret_loaded", VBool false);
                  (py "encryption_key_loaded", VBool false) ]
       ∧ text = secrets_text true false false).
Proof.
  split.
  - exists (secrets_payload env). do 4 eexists.
    split; [apply handle_secrets|].
    split; [reflexivity|].
    split; [apply utf8_ascii, dumps_ascii|].
    split; [apply loads_dumps;
            [apply secrets_payload_nodup|apply secrets_payload_readable]|].
    split; [reflexivity|].
    repeat split; by apply bool_present.
  - intros Hdb Hjwt Henc. eexists.
    split; [apply handle_secrets|].
    rewrite secrets_dumps. unfold environ_get.
    rewrite Hdb, Hjwt, Henc. split; reflexivity.
Qed.

Lemma secrets_response_witness :
  let env : environment :=
    {[ py "DB_PASSWORD" := py "secret"; py "ENCRYPTION_KEY" := [];
       py "ENVIRONMENT" := py "production" ]} in
  ∃ text : str,
    handle env (py "/secrets") =
      Some (mkResponse 200 [(py "Content-Type", py "application/json")]
              (ascii_bytes text))
    ∧ json.loads text =
        Some [ (py "db_password_loaded", VBool true);
               (py "jwt_secret_loaded", VBool false);
               (py "encryption_key_loaded", VBool false) ]
    ∧ text = secrets_text true false false.
Proof.
  intros env. apply (proj2 (secrets_response env)); vm_compute; reflexivity.
Defined.

(** With DB_PASSWORD=true the body of /secrets has the text [true] in it. *)
Lemma secrets_body_includes_a_value : ¬ secrets_body_excludes_every_value.
Proof.
  intros H.
  pose (env := ({[ py "DB_PASSWORD" := py "true" ]} : environment)).
  specialize (H env (py "DB_PASSWORD") (py "true") (bytes_of "true")
                (mkResponse 200 [content_type_json]
                   (ascii_bytes (secrets_text true false false)))).
  assert (Hin : py "DB_PASSWORD" ∈ secret_variables)
    by (unfold secret_variables; set_solver).
  specialize (H Hin eq_refl eq_refl).
  assert (Hr : handle env (py "/secrets") =
               Some (mkResponse 200 [content_type_json]
                       (ascii_bytes (secrets_text true false false))))
    by (vm_compute; reflexivity).
  specialize (H Hr). vm_compute in H. discriminate H.
Qed.

(** C4, amended: the /secrets object holds booleans only, the flags of the
    three variables, and the body is the text fixed by these three flags:
    the values of the secrets take no part in it.  So a value is found in
    the body only when it happens to be part of that fixed text, and a value
    that occurs in none of the eight texts is never in the body. *)
Theorem secrets_body_from_flags_only (env : environment) :
  let flag key := bool_ (environ_get env key) in
  let text :=
    secrets_text (flag (py "DB_PASSWORD")) (flag (py "JWT_SECRET"))
      (flag (py "ENCRYPTION_KEY")) in
  handle env (py "/secrets") =
    Some (mkResponse 200 [(py "Content-Type", py "application/json")]
            (ascii_bytes text))
  ∧ (∀ key v, (key, v) ∈ secrets_payload env → ∃ b : bool, v = VBool b)
  ∧ (∀ bs : list byte,
       (∀ b1 b2 b3, includes bs (ascii_bytes (secrets_text b1 b2 b3)) = false) →
       includes bs (ascii_bytes text) = false).
Proof.
  intros flag text. subst flag text. cbv beta.
  split; [by rewrite handle_secrets, secrets_dumps|].
  split; [|by intros bs Hbs].
  intros key v Hin. unfold secrets_payload in Hin.
  rewrite !elem_of_cons, elem_of_nil in Hin.
  destruct Hin as [Hin|[Hin|[Hin|[]]]]; inversion Hin; by eexists.
Qed.

Lemma secrets_body_from_flags_only_witness :
  let env : environment :=
    {[ py "DB_PASSWORD" := py "hunter2"; py "JWT_SECRET" := py "s3cr3t" ]} in
  includes (bytes_of "hunter2")
    (ascii_bytes (secrets_text true true false)) = false.
Proof.
  intros env.
  apply (proj2 (proj2 (secrets_body_from_flags_only env)) (bytes_of "hunter2")).
  intros [] [] []; vm_compute; reflexivity.
Defined.

(** ** Unknown paths *)

(** C3: whatever the environment, a GET request whose path is none of
    /health, /config and /secrets gets status 404, an empty body and no
    header at all, so no Content-Type. *)
Theorem unknown_path_response (env : environment) (path : str) :
  path ≠ py "/health" → path ≠ py "/config" → path ≠ py "/secrets" →
  ∃ r, handle env path = Some r
       ∧ status r = 404 ∧ body r = [] ∧ headers r = []
       ∧ content_type r = None.
Proof.
  intros H1 H2 H3. exists (mkResponse 404 [] []).
  split; [by apply handle_other|done].
Qed.

(** A trailing slash, a query string and a change of case all miss the
    routes. *)
Lemma unknown_path_response_witness :
  let env : environment := {[ py "API_KEY" := py "abc123" ]} in
  (∃ r, handle env (py "/health/") = Some r
        ∧ status r = 404 ∧ body r = [] ∧ headers r = []
        ∧ content_type r = None)
  ∧ (∃ r, handle env (py "/config?verbose=1") = Some r
          ∧ status r = 404 ∧ body r = [] ∧ headers r = []
          ∧ content_type r = None)
  ∧ (∃ r, handle env (py "/Secrets") = Some r
          ∧ status r = 404 ∧ body r = [] ∧ headers r = []
          ∧ content_type r = None).
Proof.
  intros env.
  split; [|split]; apply unknown_path_response; literal_ne.
Defined.

(** ** The wire format *)

(** C8: the three bodies are the UTF-8 encoding of a JSON text and come
    with Content-Type: application/json.  The /health text is on one line.
    The /config and /secrets texts have an opening brace, then one member
    per line behind two spaces, with a comma after every member but the
    last, then a closing brace on a line of its own; no member has a line
    break inside.  The texts read as the objects they were written from,
    the /config one when the echoed values are strings as [os.environ]
    holds them. *)
Theorem wire_format (env : environment) :
  (∃ r text,
     handle env (py "/health") = Some r
     ∧ content_type r = Some (py "application/json")
     ∧ text = json.dumps None health_payload
     ∧ utf8 text = Some (body r)
     ∧ text = health_text
     ∧ (newline ∉ text)
     ∧ json.loads text = Some health_payload)
  ∧ (∃ r text,
       handle env (py "/config") = Some r
       ∧ content_type r = Some (py "application/json")
       ∧ text = json.dumps (Some 2%nat) (config_payload env)
       ∧ utf8 text = Some (body r)
       ∧ text = pretty 2 (map json.encode_member (config_payload env))
       ∧ Forall (λ m, newline ∉ m)
           (map json.encode_member (config_payload env))
       ∧ (readable_environment env →
          json.loads text = Some (config_payload env)))
  ∧ (∃ r text,
       handle env (py "/secrets") = Some r
       ∧ content_type r = Some (py "application/json")
       ∧ text = json.dumps (Some 2%nat) (secrets_payload env)
       ∧ utf8 text = Some (body r)
       ∧ text = pretty 2 (map json.encode_member (secrets_payload env))
       ∧ Forall (λ m, newline ∉ m)
           (map json.encode_member (secrets_payload env))
       ∧ json.loads text = Some (secrets_payload env)).
Proof.
  assert (Hline : ∀ d : dict,
            Forall (λ m, newline ∉ m) (map json.encode_member d)).
  { intros d. apply List.Forall_map, Forall_forall. intros kv _ Hin.
    pose proof (encode_member_printable kv) as Hp.
    rewrite Forall_forall in Hp. apply Hp in Hin.
    unfold printable, newline in Hin. lia. }
  split; [|split].
  - do 2 eexists. split; [apply handle_health|].
    split; [reflexivity|]. split; [reflexivity|].
    split; [apply utf8_ascii, dumps_ascii|].
    split; [reflexivity|]. split; [|reflexivity].
    intros Hin. vm_compute in Hin.
    repeat (apply elem_of_cons in Hin as [Hin|Hin]; [discriminate Hin|]).
    by apply elem_of_nil in Hin.
  - do 2 eexists. split; [apply handle_config|].
    split; [reflexivity|]. split; [reflexivity|].
    split; [apply utf8_ascii, dumps_ascii|].
    split; [apply dumps_pretty|]. split; [apply Hline|].
    intros Hr. apply loads_dumps;
      [apply config_payload_nodup|by apply config_payload_readable].
  - do 2 eexists. split; [apply handle_secrets|].
    split; [reflexivity|]. split; [reflexivity|].
    split; [apply utf8_ascii, dumps_ascii|].
    split; [apply dumps_pretty|]. split; [apply Hline|].
    apply loads_dumps;
      [apply secrets_payload_nodup|apply secrets_payload_readable].
Qed.

Lemma wire_format_witness :
  let env : environment :=
    {[ py "APP_CONFIG" := (py "{mode: fast}" ++ [9; 233; 8364]);
       py "FEATURE_FLAGS" := py "a,b" ]} in
  ∃ r text,
    handle env (py "/config") = Some r
    ∧ utf8 text = Some (body r)
    ∧ json.loads text = Some (config_payload env).
Proof.
  intros env.
  destruct (wire_format env)
    as (_ & (r & text & Hh & _ & _ & Hu & _ & _ & Hl) & _).
  exists r, text. split; [exact Hh|]. split; [exact Hu|].
  apply Hl. literal_environment.
Defined.

(** ** A variable set to the empty string *)

(** With DATABASE_URL set to the empty string /config says [""], without it
    /config says ["not_set"]. *)
Lemma empty_is_unset_everywhere_fails : ¬ empty_is_unset_everywhere.
Proof.
  intros H.
  specialize (H ∅ (py "DATABASE_URL") (py "/config")).
  assert (Hin : py "DATABASE_URL" ∈ tracked_variables)
    by (unfold tracked_variables, string_variables; set_solver).
  specialize (H Hin). vm_compute in H. discriminate H.
Qed.

(** C5, amended: for the variables read through [bool(..)] (API_KEY,
    DB_PASSWORD, JWT_SECRET, ENCRYPTION_KEY) on every path, and for the
    variables read with the default ['not_set'] (DATABASE_URL, APP_CONFIG,
    FEATURE_FLAGS, ENVIRONMENT) on every path but /config, the empty string
    gives the very response of the environment without the variable. *)
Theorem empty_is_unset_where_it_holds (env : environment) (key path : str) :
  key ∈ flag_variables ∨ (key ∈ string_variables ∧ path ≠ py "/config") →
  handle (<[key := []]> env) path = handle (delete key env) path.
Proof.
  intros Hkey. apply handle_ext.
  - intros ->. destruct Hkey as [Hkey|[_ Hpath]]; [|done].
    unfold flag_variables in Hkey.
    rewrite !elem_of_cons, elem_of_nil in Hkey.
    apply config_payload_ext;
      first [ apply empty_or_unset_bool
            | apply empty_or_unset_other;
              destruct Hkey as [->|[->|[->|[->|[]]]]]; literal_ne ].
  - intros _. apply secrets_payload_ext; apply empty_or_unset_bool.
Qed.

Lemma empty_is_unset_where_it_holds_witness :
  let env : environment := {[ py "DATABASE_URL" := py "postgres://x" ]} in
  handle (<[py "API_KEY" := []]> env) (py "/config")
    = handle (delete (py "API_KEY") env) (py "/config")
  ∧ handle (<[py "ENVIRONMENT" := []]> env) (py "/secrets")
    = handle (delete (py "ENVIRONMENT") env) (py "/secrets").
Proof.
  intros env. split; apply empty_is_unset_where_it_holds.
  - left. unfold flag_variables. set_solver.
  - right. split; [unfold string_variables; set_solver | literal_ne].
Defined.

Lemma field_of_config env field v :
  dict_get (config_payload env) field = Some v →
  field_of env (py "/config") field v.
Proof. intros H. eexists. split; [apply handle_config|exact H]. Qed.

Lemma field_of_secrets env field v :
  dict_get (secrets_payload env) field = Some v →
  field_of env (py "/secrets") field v.
Proof. intros H. eexists. split; [apply handle_secrets|exact H]. Qed.

(** C6: set to the empty string, a variable read through [bool(..)] gives
    the flag false, as it does when it is not set; a variable read with the
    default ['not_set'] gives the field the empty string, where it gives
    ['not_set'] when it is not set. *)
Theorem empty_value_semantics (env : environment) :
  let empty key : environment := <[key := []]> env in
  let unset key : environment := delete key env in
  let config := py "/config" in
  let secrets := py "/secrets" in
  (field_of (empty (py "API_KEY")) config (py "api_key_present") (VBool false)
   ∧ field_of (unset (py "API_KEY")) config (py "api_key_present") (VBool false))
  ∧ (field_of (empty (py "DB_PASSWORD")) secrets (py "db_password_loaded")
       (VBool false)
     ∧ field_of (unset (py "DB_PASSWORD")) secrets (py "db_password_loaded")
         (VBool false))
  ∧ (field_of (empty (py "JWT_SECRET")) secrets (py "jwt_secret_loaded")
       (VBool false)
     ∧ field_of (unset (py "JWT_SECRET")) secrets (py "jwt_secret_loaded")
         (VBool false))
  ∧ (field_of (empty (py "ENCRYPTION_KEY")) secrets (py "encryption_key_loaded")
       (VBool false)
     ∧ field_of (unset (py "ENCRYPTION_KEY")) secrets (py "encryption_key_loaded")
         (VBool false))
  ∧ (field_of (empty (py "DATABASE_URL")) config (py "database_url") (VStr [])
     ∧ field_of (unset (py "DATABASE_URL")) config (py "database_url")
         (VStr (py "not_set")))
  ∧ (field_of (empty (py "APP_CONFIG")) config (py "app_config") (VStr [])
     ∧ field_of (unset (py "APP_CONFIG")) config (py "app_config")
         (VStr (py "not_set")))
  ∧ (field_of (empty (py "FEATURE_FLAGS")) config (py "feature_flags") (VStr [])
     ∧ field_of (unset (py "FEATURE_FLAGS")) config (py "feature_flags")
         (VStr (py "not_set")))
  ∧ (field_of (empty (py "ENVIRONMENT")) config (py "environment") (VStr [])
     ∧ field_of (unset (py "ENVIRONMENT")) config (py "environment")
         (VStr (py "not_set"))).
Proof.
  intros empty unset config secrets. subst empty unset config secrets.
  repeat match goal with |- _ ∧ _ => split end;
    lazymatch goal with
    | |- field_of _ (py "/config") _ _ => apply field_of_config
    | |- field_of _ (py "/secrets") _ _ => apply field_of_secrets
    end;
    unfold config_payload, secrets_payload, environ_get, environ_get_default;
    rewrite ?lookup_insert_eq, ?lookup_delete_eq;
    cbn [dict_get bool_]; literal_path; reflexivity.
Qed.

(** ** Each route reads its own variables only *)

(** C10: two environments that give DB_PASSWORD, JWT_SECRET and
    ENCRYPTION_KEY the same set-and-non-empty status get the same /secrets
    response, and two environments that give DATABASE_URL, API_KEY,
    APP_CONFIG, FEATURE_FLAGS and ENVIRONMENT the same values get the same
    /config response. *)
Theorem route_reads_own_variables (env1 env2 : environment) :
  ((∀ key, key ∈ secret_variables → same_presence env1 env2 key) →
   handle env1 (py "/secrets") = handle env2 (py "/secrets"))
  ∧ ((∀ key, key ∈ config_variables → same_value env1 env2 key) →
     handle env1 (py "/config") = handle env2 (py "/config")).
Proof.
  split; intros H; apply handle_ext; intros Hp;
    try (exfalso; vm_compute in Hp; discriminate Hp).
  - apply secrets_payload_ext; apply bool_same_presence, H;
      unfold secret_variables; set_solver.
  - apply config_payload_ext;
      first [ apply H; unfold config_variables; set_solver
            | unfold environ_get; rewrite (H (py "API_KEY")); [done|];
              unfold config_variables; set_solver ].
Qed.

(** The first pair differs in the five configuration variables and in the
    values of the secrets, the second pair in the three secrets. *)
Lemma route_reads_own_variables_witness :
  let env1 : environment :=
    {[ py "DB_PASSWORD" := py "secret"; py "DATABASE_URL" := py "postgres://x" ]} in
  let env2 : environment :=
    {[ py "DB_PASSWORD" := py "hunter2"; py "API_KEY" := py "abc123" ]} in
  let env3 : environment :=
    {[ py "DATABASE_URL" := py "postgres://x"; py "JWT_SECRET" := py "s3cr3t" ]} in
  let env4 : environment :=
    {[ py "DATABASE_URL" := py "postgres://x"; py "ENCRYPTION_KEY" := py "k" ]} in
  handle env1 (py "/secrets") = handle env2 (py "/secrets")
  ∧ handle env3 (py "/config") = handle env4 (py "/config").
Proof.
  intros env1 env2 env3 env4. split.
  - apply (proj1 (route_reads_own_variables env1 env2)).
    intros key Hkey. unfold secret_variables in Hkey.
    rewrite !elem_of_cons, elem_of_nil in Hkey.
    destruct Hkey as [->|[->|[->|[]]]];
      unfold same_presence; rewrite <- !bool_present; vm_compute; tauto.
  - apply (proj2 (route_reads_own_variables env3 env4)).
    intros key Hkey. unfold config_variables in Hkey.
    rewrite !elem_of_cons, elem_of_nil in Hkey.
    destruct Hkey as [->|[->|[->|[->|[->|[]]]]]];
      vm_compute; reflexivity.
Defined.

(** ** The handler leaves the process alone *)


(** * Further properties of the handler and of what it calls *)

(** ** Routing *)





(** ** What a body is made of *)

Lemma printable_plain c : printable c → plain c.
Proof. by right. Qed.

Lemma plain_ascii c : plain c → is_ascii c.
Proof. unfold plain, printable, is_ascii. lia. Qed.

Lemma newline_indent_plain n level :
  Forall plain (json.newline_indent n level).
Proof.
  unfold json.newline_indent. constructor; [by left|].
  apply Forall_forall. intros c Hc.
  apply list_elem_of_In, repeat_spec in Hc. subst c.
  right. unfold printable, space. lia.
Qed.

Lemma encode_items_plain sep first items :
  Forall plain sep → Forall plain (json.encode_items sep first items).
Proof.
  intros Hsep. revert first.
  induction items as [|kv rest IH]; intros first; cbn [json.encode_items];
    [constructor|].
  apply Forall_app_2; [by destruct first|].
  apply Forall_app_2; [|apply IH].
  eapply Forall_impl; [apply encode_member_printable|].
  apply printable_plain.
Qed.

Lemma dumps_plain indent dct : Forall plain (json.dumps indent dct).
Proof.
  assert (Hlit : ∀ s, Forall printable (py s) → Forall plain (py s)).
  { intros s Hs. eapply Forall_impl; [exact Hs|apply printable_plain]. }
  unfold json.dumps. destruct dct as [|kv rest].
  - by apply Hlit, py_literal_printable.
  - apply Forall_app_2; [by apply Hlit, py_literal_printable|].
    apply Forall_app_2;
      [destruct indent; [apply newline_indent_plain|constructor]|].
    apply Forall_app_2.
    { apply encode_items_plain. destruct indent as [n|]; cbn [json.item_separator].
      - apply Forall_app_2; [by apply Hlit, py_literal_printable|].
        apply newline_indent_plain.
      - by apply Hlit, py_literal_printable. }
    apply Forall_app_2;
      [destruct indent; [apply newline_indent_plain|constructor]|].
    by apply Hlit, py_literal_printable.
Qed.

Lemma ascii_bytes_plain s :
  Forall plain s → Forall (λ b, plain (Byte.to_N b)) (ascii_bytes s).
Proof.
  intros Hs. unfold ascii_bytes. apply List.Forall_map.
  eapply Forall_impl; [exact Hs|]. intros c Hc. cbv beta.
  by rewrite byte_of_ascii by by apply plain_ascii.
Qed.

(** X2: whatever the environment holds and whatever the path, every byte of
    the body is a printable ASCII character or a line feed: control
    characters and characters beyond ASCII in a value reach the client as
    escapes only. *)
Theorem body_is_plain_ascii (env : environment) (path : str) :
  ∃ r, handle env path = Some r
       ∧ Forall (λ b, plain (Byte.to_N b)) (body r).
Proof.
  rewrite handle_cases.
  repeat case_decide; eexists; (split; [reflexivity|]); cbn [body];
    first [apply ascii_bytes_plain, dumps_plain | constructor].
Qed.

(** ** The number of lines *)

Lemma line_feeds_ascii_bytes s :
  Forall is_ascii s →
  line_feeds (ascii_bytes s) = length (filter (λ c : N, c = 10) s).
Proof.
  unfold line_feeds, ascii_bytes.
  induction 1 as [|c s Hc _ IH]; [done|].
  cbn [map]. rewrite !filter_cons, byte_of_ascii by done.
  destruct (decide (c = 10)); cbn [length]; by rewrite IH.
Qed.

Lemma no_line_feed_count (s : str) :
  newline ∉ s → length (filter (λ c : N, c = 10) s) = 0%nat.
Proof.
  induction s as [|c s IH]; intros Hs; [done|].
  apply not_elem_of_cons in Hs as [Hc Hs].
  rewrite filter_cons. unfold newline in Hc.
  rewrite decide_False by done. by apply IH.
Qed.

Lemma spaces_count n : length (filter (λ c : N, c = 10) (repeat space n)) = 0%nat.
Proof.
  apply no_line_feed_count. intros Hin.
  apply list_elem_of_In, repeat_spec in Hin. discriminate Hin.
Qed.

Lemma member_lines_count n members :
  Forall (λ m, newline ∉ m) members →
  length (filter (λ c : N, c = 10) (member_lines n members)) = length members.
Proof.
  induction 1 as [|m rest Hm Hrest IH]; [done|].
  destruct rest as [|m' rest].
  - cbn [member_lines length]. rewrite filter_cons, decide_True by done.
    cbn [length]. rewrite filter_app, length_app, spaces_count.
    by rewrite no_line_feed_count.
  - change (member_lines n (m :: m' :: rest))
      with (newline :: repeat space n ++ m ++ py "," ++
            member_lines n (m' :: rest)).
    rewrite filter_cons, decide_True by done.
    cbn [length]. rewrite !filter_app, !length_app, spaces_count, IH.
    by rewrite no_line_feed_count.
Qed.

Lemma pretty_count n members :
  Forall (λ m, newline ∉ m) members →
  length (filter (λ c : N, c = 10) (pretty n members)) = S (length members).
Proof.
  intros Hm. unfold pretty.
  rewrite !filter_app, !length_app, member_lines_count by done.
  change (length (filter (λ c : N, c = 10) (py "{"))) with 0%nat.
  change (length (filter (λ c : N, c = 10) [newline])) with 1%nat.
  change (length (filter (λ c : N, c = 10) (py "}"))) with 0%nat.
  lia.
Qed.

Lemma encode_member_no_line_feed (d : dict) :
  Forall (λ m, newline ∉ m) (map json.encode_member d).
Proof.
  apply List.Forall_map, Forall_forall. intros kv _ Hin.
  pose proof (encode_member_printable kv) as Hp.
  rewrite Forall_forall in Hp. apply Hp in Hin.
  unfold printable, newline in Hin. lia.
Qed.

(** X3: the layout does not depend on the values.  The /health body has no
    line feed, the /config body has six and the /secrets body four, whatever
    the environment: a line break inside a value cannot add a line to a
    body. *)
Theorem bodies_have_fixed_line_counts (env : environment) :
  ∃ rh rc rs,
    handle env (py "/health") = Some rh
    ∧ handle env (py "/config") = Some rc
    ∧ handle env (py "/secrets") = Some rs
    ∧ line_feeds (body rh) = 0%nat
    ∧ line_feeds (body rc) = 6%nat
    ∧ line_feeds (body rs) = 4%nat.
Proof.
  do 3 eexists.
  split; [apply handle_health|]. split; [apply handle_config|].
  split; [apply handle_secrets|]. cbn [body].
  rewrite !line_feeds_ascii_bytes by apply dumps_ascii.
  split; [reflexivity|].
  unfold config_payload, secrets_payload. rewrite !dumps_pretty.
  rewrite !pretty_count by apply encode_member_no_line_feed.
  done.
Qed.

(** ** Values that [str.encode()] refuses *)

Lemma utf8_char_defined c :
  is_Some (utf8_char c) ↔ encodable_char c = true.
Proof.
  unfold utf8_char, encodable_char, is_surrogate.
  destruct (c <? 128) eqn:E1.
  { apply N.ltb_lt in E1. split; [intros _|by eexists].
    apply andb_true_iff. split; [apply N.ltb_lt; lia|].
    apply negb_true_iff, andb_false_iff. left. apply N.leb_gt. lia. }
  destruct (c <? 2048) eqn:E2.
  { apply N.ltb_lt in E2. split; [intros _|by eexists].
    apply andb_true_iff. split; [apply N.ltb_lt; lia|].
    apply negb_true_iff, andb_false_iff. left. apply N.leb_gt. lia. }
  destruct ((55296 <=? c) && (c <=? 57343)) eqn:E3.
  { split; [by intros [? ?]|]. rewrite andb_false_r. discriminate. }
  destruct (c <? 65536) eqn:E4.
  { apply N.ltb_lt in E4. split; [intros _|by eexists].
    apply andb_true_iff. split; [apply N.ltb_lt; lia|done]. }
  destruct (c <? 1114112) eqn:E5.
  - split; [done|by eexists].
  - split; [by intros [? ?]|discriminate].
Qed.

Lemma utf8_defined s :
  is_Some (utf8 s) ↔ forallb encodable_char s = true.
Proof.
  induction s as [|c s IH]; [by split; [|eexists]|].
  cbn [utf8 forallb]. rewrite andb_true_iff, <- IH, <- utf8_char_defined.
  destruct (utf8_char c), (utf8 s); split;
    try (by intros [? ?]); try (by intros [[? ?] [? ?]]);
    try (intros _; split; by eexists); by eexists.
Qed.

Lemma str_encode_raises s :
  forallb encodable_char s = false → str_encode s = Raised UnicodeEncodeError.
Proof.
  intros Hs. unfold str_encode.
  destruct (utf8 s) as [bs|] eqn:E; [|done].
  assert (Hsome : is_Some (utf8 s)) by (rewrite E; by eexists).
  apply utf8_defined in Hsome. congruence.
Qed.

Lemma str_encode_returns s :
  forallb encodable_char s = true → ∃ bs, str_encode s = Ok bs.
Proof.
  intros Hs. apply utf8_defined in Hs as [bs Hbs].
  exists bs. unfold str_encode. by rewrite Hbs.
Qed.

(** X4: [encode()] raises on a text that holds a surrogate, such as an
    environment value made from bytes that are not UTF-8, and returns on
    every other text.  The handler still answers /config with 200 when an
    echoed variable holds such a value, and the value is in the object it
    writes: the encoder has turned it into ASCII escapes before [encode()]
    sees it. *)
Theorem config_survives_unencodable_value (env : environment) (key v : str) :
  key ∈ string_variables →
  env !! key = Some v →
  forallb encodable_char v = false →
  str_encode v = Raised UnicodeEncodeError
  ∧ ∃ field, field_of env (py "/config") field (VStr v).
Proof.
  intros Hkey Hv Hbad. split; [by apply str_encode_raises|].
  unfold string_variables in Hkey.
  rewrite !elem_of_cons, elem_of_nil in Hkey.
  destruct Hkey as [->|[->|[->|[->|[]]]]].
  - exists (py "database_url"). apply field_of_config.
    unfold config_payload, environ_get_default. rewrite Hv.
    cbn [dict_get]. by literal_path.
  - exists (py "app_config"). apply field_of_config.
    unfold config_payload, environ_get_default. rewrite Hv.
    cbn [dict_get]. by literal_path.
  - exists (py "feature_flags"). apply field_of_config.
    unfold config_payload, environ_get_default. rewrite Hv.
    cbn [dict_get]. by literal_path.
  - exists (py "environment"). apply field_of_config.
    unfold config_payload, environ_get_default. rewrite Hv.
    cbn [dict_get]. by literal_path.
Qed.

(** APP_CONFIG made from the bytes of [caf] and a byte 0xE9 that is not
    UTF-8. *)
Lemma config_survives_unencodable_value_witness :
  let v : str := py "caf" ++ [56553] in
  let env : environment := {[ py "APP_CONFIG" := v ]} in
  str_encode v = Raised UnicodeEncodeError
  ∧ ∃ field, field_of env (py "/config") field (VStr v).
Proof.
  intros v env.
  apply (config_survives_unencodable_value env (py "APP_CONFIG") v).
  - unfold string_variables. set_solver.
  - vm_compute. reflexivity.
  - vm_compute. reflexivity.
Defined.

(** ** What the responses cannot tell apart, and what they never show *)

Lemma default_or_unset (env : environment) (key key' dflt : str) :
  environ_get_default (<[key := dflt]> env) key' dflt
  = environ_get_default (delete key env) key' dflt.
Proof.
  unfold environ_get_default. destruct (decide (key = key')) as [->|Hne].
  - by rewrite lookup_insert_eq, lookup_delete_eq.
  - by rewrite lookup_insert_ne, lookup_delete_ne.
Qed.

(** X5: a variable that /config echoes and that is set to the very text
    not_set gives, on every path, the response of the same environment
    without the variable: a client cannot tell the two apart. *)
Theorem not_set_is_ambiguous (env : environment) (key path : str) :
  key ∈ string_variables →
  handle (<[key := py "not_set"]> env) path = handle (delete key env) path.
Proof.
  intros Hkey. unfold string_variables in Hkey.
  rewrite !elem_of_cons, elem_of_nil in Hkey.
  apply handle_ext; intros _.
  - unfold config_payload. rewrite !default_or_unset.
    do 4 f_equal. unfold environ_get.
    destruct Hkey as [->|[->|[->|[->|[]]]]];
      by rewrite lookup_insert_ne, lookup_delete_ne by literal_ne.
  - apply secrets_payload_ext; unfold environ_get;
      destruct Hkey as [->|[->|[->|[->|[]]]]];
      by rewrite lookup_insert_ne, lookup_delete_ne by literal_ne.
Qed.

Lemma not_set_is_ambiguous_witness :
  let env : environment := {[ py "API_KEY" := py "abc123" ]} in
  handle (<[py "ENVIRONMENT" := py "not_set"]> env) (py "/config")
  = handle (delete (py "ENVIRONMENT") env) (py "/config").
Proof.
  intros env. apply not_set_is_ambiguous.
  unfold string_variables. set_solver.
Defined.

Lemma bool_of_two_values (env : environment) (key key' v1 v2 : str) :
  v1 ≠ [] → v2 ≠ [] →
  bool_ (environ_get (<[key := v1]> env) key')
  = bool_ (environ_get (<[key := v2]> env) key').
Proof.
  intros H1 H2. unfold environ_get.
  destruct (decide (key = key')) as [->|Hne].
  - rewrite !lookup_insert_eq. by destruct v1, v2.
  - by rewrite !lookup_insert_ne.
Qed.

(** X6: of API_KEY, DB_PASSWORD, JWT_SECRET and ENCRYPTION_KEY no response
    shows more than whether the variable is set and not empty: replacing a
    non-empty value by any other non-empty value changes no response, on
    any path. *)
Theorem flag_values_are_never_shown
  (env : environment) (key v1 v2 path : str) :
  key ∈ flag_variables → v1 ≠ [] → v2 ≠ [] →
  handle (<[key := v1]> env) path = handle (<[key := v2]> env) path.
Proof.
  intros Hkey H1 H2. unfold flag_variables in Hkey.
  rewrite !elem_of_cons, elem_of_nil in Hkey.
  apply handle_ext; intros _.
  - apply config_payload_ext; try by apply bool_of_two_values.
    all: unfold same_value;
      destruct Hkey as [->|[->|[->|[->|[]]]]];
      by rewrite !lookup_insert_ne by literal_ne.
  - apply secrets_payload_ext; by apply bool_of_two_values.
Qed.

Lemma flag_values_are_never_shown_witness :
  let env : environment := {[ py "DATABASE_URL" := py "postgres://x" ]} in
  handle (<[py "API_KEY" := py "abc123"]> env) (py "/config")
  = handle (<[py "API_KEY" := py "another key"]> env) (py "/config").
Proof.
  intros env. apply flag_values_are_never_shown.
  - unfold flag_variables. set_solver.
  - discriminate.
  - discriminate.
Defined.

(** X7: the handler reads no variable beyond the eight it names: setting,
    changing or removing any other variable changes no response, on any
    path. *)
Theorem other_variables_are_not_read (env : environment) (key path : str) :
  key ∉ tracked_variables →
  (∀ v, handle (<[key := v]> env) path = handle env path)
  ∧ handle (delete key env) path = handle env path.
Proof.
  intros Hkey. unfold tracked_variables, string_variables, flag_variables in Hkey.
  cbn [app] in Hkey. rewrite !not_elem_of_cons in Hkey.
  destruct Hkey as (K1 & K2 & K3 & K4 & K5 & K6 & K7 & K8 & _).
  split; [intros v|]; apply handle_ext; intros _.
  - apply config_payload_ext; unfold same_value, environ_get;
      by rewrite lookup_insert_ne.
  - apply secrets_payload_ext; unfold environ_get;
      by rewrite lookup_insert_ne.
  - apply config_payload_ext; unfold same_value, environ_get;
      by rewrite lookup_delete_ne.
  - apply secrets_payload_ext; unfold environ_get;
      by rewrite lookup_delete_ne.
Qed.

Lemma other_variables_are_not_read_witness :
  let env : environment := {[ py "DB_PASSWORD" := py "secret" ]} in
  (∀ v, handle (<[py "PATH" := v]> env) (py "/secrets")
        = handle env (py "/secrets"))
  ∧ handle (delete (py "PATH") env) (py "/secrets")
    = handle env (py "/secrets").
Proof.
  intros env. apply other_variables_are_not_read.
  unfold tracked_variables, string_variables, flag_variables. cbn [app].
  rewrite !not_elem_of_cons. repeat split; try literal_ne.
  apply not_elem_of_nil.
Defined.

(** ** The order of the calls *)

(** X8: on every path the handler calls [send_response] once and first,
    then [send_header] at most once, then [end_headers] once, then
    [wfile.write] at most once, and nothing else: no header is sent after
    the headers are closed and no body before. *)
Theorem calls_come_in_order (env : environment) (path : str) :
  ∃ (code : N) (hs : list (str * str)) (ws : list (list byte)),
    emitted path env =
      EvResponse code :: map (λ h, EvHeader h.1 h.2) hs
        ++ EvEndHeaders :: map EvWrite ws
    ∧ (length hs ≤ 1)%nat ∧ (length ws ≤ 1)%nat.
Proof.
  unfold emitted.
  destruct (decide (path = py "/health")) as [->|H1];
    [rewrite do_GET_health
    |destruct (decide (path = py "/config")) as [->|H2];
      [rewrite do_GET_config
      |destruct (decide (path = py "/secrets")) as [->|H3];
        [rewrite do_GET_secrets|rewrite do_GET_other by done]]].
  1-3: eexists 200, [content_type_json], [_]; cbn; split; [reflexivity|lia].
  exists 404, [], []. cbn. split; [reflexivity|lia].
Qed.

(** ** Writing a dictionary and reading it back *)

(** X9: [json.loads(json.dumps(d, indent=n))] is [d], with or without
    [indent], for every dictionary of strings and booleans with distinct
    keys whose strings have code points below 0x110000 and no high
    surrogate. *)
Theorem dumps_then_loads (indent : option nat) (d : dict) :
  NoDup (keys d) → readable_dict d →
  json.loads (json.dumps indent d) = Some d.
Proof. apply loads_dumps. Qed.

Lemma dumps_then_loads_witness :
  let d : dict :=
    [ (py "quote and backslash", VStr [34; 92; 47]);
      (py "controls", VStr [0; 8; 9; 10; 12; 13; 31; 127]);
      (py "beyond ASCII", VStr [233; 8364; 65535; 65536; 128512; 1114111]);
      (py "low surrogate", VStr [56448; 57343]);
      (py "empty", VStr []);
      (py "flag", VBool true) ] in
  json.loads (json.dumps None d) = Some d
  ∧ json.loads (json.dumps (Some 4%nat) d) = Some d.
Proof.
  intros d.
  assert (Hnd : NoDup (keys d))
    by (apply (bool_decide_unpack _); vm_compute; exact I).
  assert (Hr : readable_dict d).
  { unfold readable_dict, d.
    repeat apply Forall_cons_2; try apply Forall_nil_2;
      split; vm_compute; done. }
  split; apply dumps_then_loads; assumption.
Defined.

(** ** The /config body keeps what it echoes *)

Lemma ascii_bytes_back s :
  Forall is_ascii s → map Byte.to_N (ascii_bytes s) = s.
Proof.
  unfold ascii_bytes. induction 1 as [|c s Hc _ IH]; [done|].
  cbn [map]. by rewrite byte_of_ascii, IH.
Qed.

Lemma ascii_bytes_inj s1 s2 :
  Forall is_ascii s1 → Forall is_ascii s2 →
  ascii_bytes s1 = ascii_bytes s2 → s1 = s2.
Proof.
  intros H1 H2 Heq.
  rewrite <- (ascii_bytes_back s1), <- (ascii_bytes_back s2) by done.
  by rewrite Heq.
Qed.

(** X10: for environments whose echoed values are strings as [os.environ]
    holds them, the /config response keeps everything it echoes: two
    environments with the same /config response give each of DATABASE_URL,
    APP_CONFIG, FEATURE_FLAGS and ENVIRONMENT the same value, an unset
    variable counting as not_set, and give API_KEY the same set-and-non-empty
    status. *)
Theorem echoed_values_are_kept (env1 env2 : environment) :
  readable_environment env1 → readable_environment env2 →
  handle env1 (py "/config") = handle env2 (py "/config") →
  (∀ key, key ∈ string_variables →
     environ_get_default env1 key (py "not_set")
     = environ_get_default env2 key (py "not_set"))
  ∧ (present env1 (py "API_KEY") ↔ present env2 (py "API_KEY")).
Proof.
  intros Hr1 Hr2 Heq. rewrite !handle_config in Heq.
  pose proof (f_equal (λ o, match o with Some r => body r | None => [] end)
                Heq) as Hbytes.
  cbn [body] in Hbytes.
  apply ascii_bytes_inj in Hbytes; [|apply dumps_ascii..].
  assert (Hp : config_payload env1 = config_payload env2).
  { apply (inj Some).
    rewrite <- (loads_dumps (Some 2%nat) (config_payload env1)),
            <- (loads_dumps (Some 2%nat) (config_payload env2));
      [by rewrite Hbytes|apply config_payload_nodup
      |by apply config_payload_readable|apply config_payload_nodup
      |by apply config_payload_readable]. }
  unfold config_payload in Hp.
  injection Hp as Hurl Hkey Happ Hflags Henv.
  split.
  - intros key Hin. unfold string_variables in Hin.
    rewrite !elem_of_cons, elem_of_nil in Hin.
    by destruct Hin as [->|[->|[->|[->|[]]]]].
  - by rewrite <- !bool_present, Hkey.
Qed.

(** DATABASE_URL set to not_set on one side and missing on the other, and
    two different API keys. *)
Lemma echoed_values_are_kept_witness :
  let env1 : environment :=
    {[ py "DATABASE_URL" := py "not_set"; py "API_KEY" := py "abc123" ]} in
  let env2 : environment := {[ py "API_KEY" := py "another key" ]} in
  (∀ key, key ∈ string_variables →
     environ_get_default env1 key (py "not_set")
     = environ_get_default env2 key (py "not_set"))
  ∧ (present env1 (py "API_KEY") ↔ present env2 (py "API_KEY")).
Proof.
  intros env1 env2. apply echoed_values_are_kept.
  - literal_environment.
  - literal_environment.
  - vm_compute. reflexivity.
Defined.

(** ** The size of the /config body *)

Lemma escape_char_length c :
  (1 ≤ length (json.escape_char c) ≤ 12)%nat.
Proof.
  unfold json.escape_char, json.replace, json.u_escape, json.hex4.
  repeat case_match; rewrite ?length_app; cbn [length]; lia.
Qed.

Lemma escape_length s :
  (length s ≤ length (concat (map json.escape_char s)) ≤ 12 * length s)%nat.
Proof.
  induction s as [|c s IH]; [cbn; lia|].
  cbn [map concat length]. rewrite length_app.
  pose proof (escape_char_length c). lia.
Qed.

Lemma encode_string_length s :
  (2 + length s ≤ length (json.encode_basestring_ascii s) ≤ 2 + 12 * length s)%nat.
Proof.
  unfold json.encode_basestring_ascii. cbn [length]. rewrite length_app.
  cbn [length]. pose proof (escape_length s). lia.
Qed.

(** Replaces the length of a text that is given in full by its number. *)
Ltac literal_lengths :=
  repeat match goal with
  | |- context [length (py ?s)] =>
      let n := eval vm_compute in (length (py s)) in
      change (length (py s)) with n
  | |- context [length (json.encode_basestring_ascii (py ?s))] =>
      let n := eval vm_compute in (length (json.encode_basestring_ascii (py s))) in
      change (length (json.encode_basestring_ascii (py s))) with n
  | |- context [length (json.newline_indent ?a ?b)] =>
      let n := eval vm_compute in (length (json.newline_indent a b)) in
      change (length (json.newline_indent a b)) with n
  end.

(** X11: the /config body grows with the echoed values and no faster than
    twelve bytes for each of their characters: with [n] the number of
    characters of the four echoed values, not_set counting for a variable
    that is not set, the body has at least [115 + n] and at most
    [116 + 12 * n] bytes. *)
Theorem config_body_size (env : environment) :
  ∃ r, handle env (py "/config") = Some r
       ∧ (115 + echoed_length env ≤ length (body r)
          ≤ 116 + 12 * echoed_length env)%nat.
Proof.
  eexists. split; [apply handle_config|]. cbn [body].
  unfold ascii_bytes. rewrite length_map.
  unfold json.dumps, config_payload, echoed_length.
  cbn [json.encode_items]. unfold json.encode_member, json.item_separator.
  cbn [fst snd json.encode_value]. unfold json.key_separator.
  rewrite !length_app. cbn [length app]. literal_lengths.
  pose proof (encode_string_length
    (environ_get_default env (py "DATABASE_URL") (py "not_set"))).
  pose proof (encode_string_length
    (environ_get_default env (py "APP_CONFIG") (py "not_set"))).
  pose proof (encode_string_length
    (environ_get_default env (py "FEATURE_FLAGS") (py "not_set"))).
  pose proof (encode_string_length
    (environ_get_default env (py "ENVIRONMENT") (py "not_set"))).
  destruct (bool_ (environ_get env (py "API_KEY"))); literal_lengths; lia.
Qed.

(** ** The start of the program *)

